(** * LinAlg: the [Vector] and [Matrix] value types

    A shallow embedding of [src/app/domain/vector/vector.ts] and
    [src/app/domain/matrix/matrix.ts], and the properties of the
    specification proved (or refuted) on it.

    Numbers.  The specification treats elements as exact numbers; the
    embedding takes the integers [Z] for them and adds the two other
    things a cell of a JavaScript array of numbers can hold at run time
    in this code: [undefined] (what reading a hole gives, and what the
    spread of a hole stores) and [NaN] (what arithmetic on [undefined]
    gives).  Rounding, infinities and signed zeros are outside the model.

    Sizes and indices are integers too, negative ones included;
    fractional ones are outside the model.

    Arrays.  A JavaScript array is a list of slots, [None] being an empty
    slot (a hole), as [new Array(k)] makes them.  Outer arrays (the rows of
    a matrix) are never sparse in this code and are plain lists.

    Failure.  A [throw] is the [Throw] case of [result]; the run-time
    failures of the language itself ([TypeError] for a property of
    [undefined], [RangeError] for an invalid array length) are errors of
    their own. *)

From Stdlib Require Import ZArith String Lia.
From stdpp Require Import base list.

(** ** Errors and results *)

Inductive error : Type :=
| Error (message : string)   (* [throw new Error(message)] *)
| TypeError                  (* reading or writing a property of [undefined] *)
| RangeError.                (* [new Array(len)] with an invalid length *)

(** The error kinds of the specification, by the message thrown. *)
Definition IndexOutOfBounds : error := Error "Index out of bounds!".
Definition DimensionMismatch : error :=
  Error "Both vectors must have the same dimension!".
Definition NotThreeDimensional : error :=
  Error "Both vectors must have 3 dimensions!".
Definition InvalidMatrixShape : error :=
  Error "All Matrix rows must have same size!".
Definition MatrixDimensionMismatch : error :=
  Error "Matrices must have same dimensions!".

Inductive result (A : Type) : Type :=
| Ok (a : A)
| Throw (e : error).
Arguments Ok {A} a.
Arguments Throw {A} e.

Definition bind {A B} (r : result A) (k : A -> result B) : result B :=
  match r with
  | Ok a => k a
  | Throw e => Throw e
  end.

Notation "x <-- r ;; k" := (bind r (fun x => k))
  (at level 100, r at next level, right associativity,
   format "'[v' x  <--  r ;; '/' k ']'").
Notation "r ;;; k" := (bind r (fun _ => k))
  (at level 100, right associativity).

(** Sequential iteration of a body that may throw, threading the variables
    the body assigns. *)
Fixpoint foldM {A S} (body : A -> S -> result S) (l : list A) (s : S)
  : result S :=
  match l with
  | [] => Ok s
  | a :: l' => s' <-- body a s;; foldM body l' s'
  end.

(** ** Run-time values and arrays *)

Module JS.

Inductive value : Type :=
| Undefined
| Num (z : Z)
| NaN.

(** [None] is an empty slot. *)
Abbreviation array := (list (option value)).

Definition js_add (a b : value) : value :=
  match a, b with
  | Num x, Num y => Num (x + y)
  | _, _ => NaN
  end.

Definition js_sub (a b : value) : value :=
  match a, b with
  | Num x, Num y => Num (x - y)
  | _, _ => NaN
  end.

Definition js_mul (a b : value) : value :=
  match a, b with
  | Num x, Num y => Num (x * y)
  | _, _ => NaN
  end.

(** [a.length] *)
Definition Array_length {A} (a : list A) : Z := Z.of_nat (length a).

(** The largest length of an array, 2^32 - 1. *)
Definition MAX_LENGTH : Z := 4294967295.

Definition valid_length (len : Z) : bool :=
  (0 <=? len)%Z && (len <=? MAX_LENGTH)%Z.

(** [new Array(len)] for a number [len]: [len] empty slots. *)
Definition Array_new (len : Z) : result array :=
  if valid_length len then Ok (replicate (Z.to_nat len) None)
  else Throw RangeError.

(** [new Array(len)] where [len] may be [undefined] (an omitted
    argument): one element then, [undefined]. *)
Definition Array_new_arg (len : option Z) : result array :=
  match len with
  | Some k => Array_new k
  | None => Ok [Some Undefined]
  end.

(** [...a]: the elements in order, a hole read as [undefined]. *)
Definition spread (a : array) : list value :=
  default Undefined <$> a.

(** [new Array(...items)]: the array of the items, except for exactly
    one item that is a number, which is taken for a length. *)
Definition Array_of (items : list value) : result array :=
  match items with
  | [Num k] => Array_new k
  | [NaN] => Throw RangeError
  | _ => Ok (Some <$> items)
  end.

(** [a.fill(v)] *)
Definition Array_fill (v : value) (a : array) : array :=
  (fun _ => Some v) <$> a.

(** [a[i]] *)
Definition Array_get (a : array) (i : Z) : value :=
  if (i <? 0)%Z then Undefined
  else match a !! Z.to_nat i with
       | Some (Some v) => v
       | _ => Undefined
       end.

(** [a[i] = v].  Inside the array the slot is replaced; past its end the
    array grows, with holes up to [i]; a negative [i] (or one that is no
    array index) names an ordinary property and leaves the elements
    alone. *)
Definition Array_set (a : array) (i : Z) (v : value) : array :=
  if (i <? 0)%Z || (MAX_LENGTH <=? i)%Z then a
  else
    let k := Z.to_nat i in
    if decide (k < length a) then <[k := Some v]> a
    else a ++ replicate (k - length a) None ++ [Some v].

(** [rows[i][j]] *)
Definition get2 (rows : list array) (i j : Z) : result value :=
  if (i <? 0)%Z then Throw TypeError
  else match rows !! Z.to_nat i with
       | Some row => Ok (Array_get row j)
       | None => Throw TypeError
       end.

(** [rows[i][j] = v] *)
Definition set2 (rows : list array) (i j : Z) (v : value)
  : result (list array) :=
  if (i <? 0)%Z then Throw TypeError
  else match rows !! Z.to_nat i with
       | Some row => Ok (<[Z.to_nat i := Array_set row j v]> rows)
       | None => Throw TypeError
       end.

(** [a.map(f)]: [f] is called on the elements that are there, in
    increasing index, with the element and its index; holes stay. *)
Fixpoint map_from (f : value -> Z -> result value) (i : Z) (a : array)
  : result array :=
  match a with
  | [] => Ok []
  | None :: a' => r <-- map_from f (i + 1) a';; Ok (None :: r)
  | Some x :: a' =>
      y <-- f x i;;
      r <-- map_from f (i + 1) a';;
      Ok (Some y :: r)
  end.

Definition Array_map (f : value -> Z -> result value) (a : array)
  : result array :=
  map_from f 0 a.

(** [a.forEach(f)], the callback assigning to the variables [S]. *)
Fixpoint forEach_from {S} (f : value -> Z -> S -> result S) (i : Z)
  (a : array) (s : S) : result S :=
  match a with
  | [] => Ok s
  | None :: a' => forEach_from f (i + 1) a' s
  | Some x :: a' => s' <-- f x i s;; forEach_from f (i + 1) a' s'
  end.

Definition Array_forEach {S} (f : value -> Z -> S -> result S) (a : array)
  (s : S) : result S :=
  forEach_from f 0 a s.

(** The same two on an outer array, which has no holes. *)
Fixpoint mapM_from {A B} (f : A -> Z -> result B) (i : Z) (l : list A)
  : result (list B) :=
  match l with
  | [] => Ok []
  | a :: l' =>
      b <-- f a i;;
      r <-- mapM_from f (i + 1) l';;
      Ok (b :: r)
  end.

Definition mapM {A B} (f : A -> Z -> result B) (l : list A)
  : result (list B) :=
  mapM_from f 0 l.

Fixpoint forEachM_from {A S} (f : A -> Z -> S -> result S) (i : Z)
  (l : list A) (s : S) : result S :=
  match l with
  | [] => Ok s
  | a :: l' => s' <-- f a i s;; forEachM_from f (i + 1) l' s'
  end.

Definition forEachM {A S} (f : A -> Z -> S -> result S) (l : list A) (s : S)
  : result S :=
  forEachM_from f 0 l s.

(** The indices [0, 1, ..., bound - 1] a counting loop runs through. *)
Definition range (bound : Z) : list Z :=
  Z.of_nat <$> seq 0 (Z.to_nat bound).

(** [for (let i = 0; i < bound; i++) body].  The bound is a getter that
    may throw; it reads nothing the body writes, so it is evaluated
    once. *)
Definition for_loop {S} (bound : result Z) (body : Z -> S -> result S)
  (s : S) : result S :=
  b <-- bound;; foldM body (range b) s.

End JS.

Import JS.

(** ** [Vector] ([vector.ts]) *)

Module Vector.

Record t : Type := Build { _vector : array }.

(** The first argument of the constructor,
    [arg0: number | Vector | number[]]. *)
Inductive arg0 : Type :=
| OfNumber (size : Z)
| OfVector (vector : t)
| OfArray (elements : array).

Definition dimension (this : t) : Z := Array_length (_vector this).

Definition toArray (this : t) : result array :=
  Array_of (spread (_vector this)).

(** [constructor(arg0, value = 0)] *)
Definition constructor (a : arg0) (value : option Z) : result t :=
  let value := default 0%Z value in
  match a with
  | OfNumber size =>
      arr <-- Array_new size;; Ok (Build (Array_fill (Num value) arr))
  | OfVector vector =>
      arr <-- toArray vector;; Ok (Build arr)
  | OfArray elements => Ok (Build elements)
  end.

Definition checkBounds (this : t) (index : Z) : result unit :=
  if (index >=? dimension this)%Z || (index <? 0)%Z
  then Throw IndexOutOfBounds
  else Ok tt.

Definition checkDimensions (this vector : t) : result unit :=
  if negb (dimension vector =? dimension this)%Z
  then Throw DimensionMismatch
  else Ok tt.

Definition assertVectorProductDefined (this vector : t) : result unit :=
  if negb (dimension vector =? 3)%Z || negb (dimension this =? 3)%Z
  then Throw NotThreeDimensional
  else Ok tt.

Definition getAt (this : t) (index : Z) : result value :=
  checkBounds this index;;;
  Ok (Array_get (_vector this) index).

Definition setAt (this : t) (x : Z) (index : Z) : result t :=
  checkBounds this index;;;
  arr <-- Array_of (spread (_vector this));;
  constructor (OfArray (Array_set arr index (Num x))) None.

Definition map (this : t) (f : value -> Z -> result value) : result t :=
  arr <-- Array_map f (_vector this);;
  constructor (OfArray arr) None.

Definition add (this vector : t) : result t :=
  map this (fun x i => y <-- getAt vector i;; Ok (js_add x y)).

Definition multiply (this : t) (scalar : Z) : result t :=
  map this (fun x _ => Ok (js_mul x (Num scalar))).

Definition scalarProduct (this vector : t) : result value :=
  checkDimensions this vector;;;
  for_loop (Ok (dimension this))
    (fun i sum =>
       a <-- getAt vector i;;
       b <-- getAt this i;;
       Ok (js_add sum (js_mul a b)))
    (Num 0).

Definition vectorProduct (this vector : t) : result t :=
  assertVectorProductDefined this vector;;;
  a1 <-- getAt this 1;; b2 <-- getAt vector 2;;
  a2 <-- getAt this 2;; b1 <-- getAt vector 1;;
  let x := js_sub (js_mul a1 b2) (js_mul a2 b1) in
  a0 <-- getAt this 0;; b2 <-- getAt vector 2;;
  a2 <-- getAt this 2;; b0 <-- getAt vector 0;;
  let y := js_sub (js_mul a0 b2) (js_mul a2 b0) in
  a0 <-- getAt this 0;; b1 <-- getAt vector 1;;
  a1 <-- getAt this 1;; b0 <-- getAt vector 0;;
  let z := js_sub (js_mul a0 b1) (js_mul a1 b0) in
  constructor (OfArray [Some x; Some y; Some z]) None.

End Vector.

(** ** [Matrix] ([matrix.ts]) *)

Module Matrix.

Record t : Type := Build { _matrix : list array }.

(** The first argument of the constructor,
    [arg0: Matrix | Vector | number[][] | number]. *)
Inductive arg0 : Type :=
| OfMatrix (matrix : t)
| OfVector (vector : Vector.t)
| OfArray (matrix : list array)
| OfNumber (n : Z).

(** [get n] *)
Definition n (this : t) : Z := Array_length (_matrix this).

(** [get m]: the length of the first row; there must be one. *)
Definition m (this : t) : result Z :=
  match _matrix this with
  | row0 :: _ => Ok (Array_length row0)
  | [] => Throw TypeError
  end.

Definition to2dArray (this : t) : result (list array) :=
  mapM (fun row _ => Array_of (spread row)) (_matrix this).

Definition assertValidity (array2d : list array) : result unit :=
  match array2d with
  | [] => Throw TypeError
  | row0 :: _ =>
      let colSize := Array_length row0 in
      let isValidMatrix :=
        forallb (fun row => (Array_length row =? colSize)%Z) array2d in
      if negb isValidMatrix then Throw InvalidMatrixShape else Ok tt
  end.

(** [constructor(arg0, arg1?, arg2?)]; an omitted argument is [None]. *)
Definition constructor (a : arg0) (arg1 arg2 : option Z) : result t :=
  match a with
  | OfMatrix matrix =>
      arr <-- to2dArray matrix;; Ok (Build arr)
  | OfVector vector =>
      row <-- Vector.toArray vector;; Ok (Build [row])
  | OfArray array2d =>
      assertValidity array2d;;; Ok (Build array2d)
  | OfNumber n =>
      let m := match arg2 with None => Some n | Some _ => arg1 end in
      let fillValue := default 0%Z arg2 in
      outer <-- Array_new n;;
      rows <-- mapM (fun _ _ =>
                       row <-- Array_new_arg m;;
                       Ok (Array_fill (Num fillValue) row))
                    (Array_fill (Num 0) outer);;
      Ok (Build rows)
  end.

Definition checkBounds (this : t) (i j : Z) : result unit :=
  if (i <? 0)%Z || (j <? 0)%Z || (i >=? n this)%Z
  then Throw IndexOutOfBounds
  else
    cols <-- m this;;
    if (j >=? cols)%Z then Throw IndexOutOfBounds else Ok tt.

Definition getAt (this : t) (i j : Z) : result value :=
  checkBounds this i j;;;
  get2 (_matrix this) i j.

Definition setAt (this : t) (x : Z) (i j : Z) : result t :=
  checkBounds this i j;;;
  arr <-- to2dArray this;;
  arr <-- set2 arr i j (Num x);;
  constructor (OfArray arr) None None.

(** Statements of a method body that assign its variables [S]: when one
    throws, the variables are left as they were at the throw. *)
Definition stmt (S A : Type) : Type := S -> S * result A.

Definition then_ {S A B} (c : stmt S A) (k : A -> stmt S B) : stmt S B :=
  fun s =>
    match c s with
    | (s', Ok a) => k a s'
    | (s', Throw e) => (s', Throw e)
    end.

(** [l.forEach((a, index) => body)] as a statement; [None] is a hole. *)
Fixpoint each {A S} (body : A -> Z -> stmt S unit) (i : Z)
  (l : list (option A)) : stmt S unit :=
  match l with
  | [] => fun s => (s, Ok tt)
  | None :: l' => each body (i + 1) l'
  | Some a :: l' => then_ (body a i) (fun _ => each body (i + 1) l')
  end.

(** The variables of a call of [setMultiple]: the rows of the receiver,
    [this._matrix], and the local [arr], unset until its [const] is
    reached. *)
Record frame : Type := Frame {
  this_matrix : list array;
  arr : option (list array)
}.

(** [indices.forEach(([i, j]) => this.checkBounds(i, j))].  The entries of
    [indices: number[][]] are only ever destructured as [[i, j]]; they are
    pairs here. *)
Definition setMultiple_check (indices : list (Z * Z)) : stmt frame unit :=
  each (fun '(i, j) _ f => (f, checkBounds (Build (this_matrix f)) i j))
       0 (Some <$> indices).

(** [const arr = this.to2dArray()] *)
Definition setMultiple_copy : stmt frame unit :=
  fun f =>
    match to2dArray (Build (this_matrix f)) with
    | Ok copy => (Frame (this_matrix f) (Some copy), Ok tt)
    | Throw e => (f, Throw e)
    end.

(** [values.forEach((value, index) => {
       const [i, j] = indices[index]; arr[i][j] = value; })] *)
Definition setMultiple_apply (values : array) (indices : list (Z * Z))
  : stmt frame unit :=
  each (fun value index f =>
          match indices !! Z.to_nat index, arr f with
          | Some (i, j), Some a =>
              match set2 a i j value with
              | Ok a' => (Frame (this_matrix f) (Some a'), Ok tt)
              | Throw e => (f, Throw e)
              end
          | _, _ => (f, Throw TypeError)
          end)
       0 values.

(** [return new Matrix(arr)] *)
Definition setMultiple_return : stmt frame t :=
  fun f =>
    match arr f with
    | Some a => (f, constructor (OfArray a) None None)
    | None => (f, Throw TypeError)
    end.

Definition setMultiple_body (values : array) (indices : list (Z * Z))
  : stmt frame t :=
  then_ (setMultiple_check indices) (fun _ =>
  then_ setMultiple_copy (fun _ =>
  then_ (setMultiple_apply values indices) (fun _ =>
  setMultiple_return))).

Definition setMultiple (this : t) (values : array) (indices : list (Z * Z))
  : result t :=
  snd (setMultiple_body values indices (Frame (_matrix this) None)).

Definition identity (n : Z) : result t :=
  zero <-- constructor (OfNumber n) (Some 0%Z) None;;
  a <-- Array_new n;;
  let ones := Array_fill (Num 1) a in
  b <-- Array_new n;;
  indices <-- mapM (fun _ i => Ok (i, i)) (Array_fill (Num 0) b);;
  setMultiple zero ones indices.

Definition checkDimensions (this matrix : t) : result unit :=
  if negb (n this =? n matrix)%Z then Throw MatrixDimensionMismatch
  else
    a <-- m this;;
    b <-- m matrix;;
    if negb (a =? b)%Z then Throw MatrixDimensionMismatch else Ok tt.

Definition add (this matrix : t) : result t :=
  checkDimensions this matrix;;;
  arr <-- mapM (fun row i =>
                  Array_map (fun x j =>
                               y <-- getAt matrix i j;; Ok (js_add x y))
                            row)
               (_matrix this);;
  constructor (OfArray arr) None None.

Definition multiply (this : t) (scalar : Z) : result t :=
  arr <-- mapM (fun row _ =>
                  Array_map (fun x _ => Ok (js_mul x (Num scalar))) row)
               (_matrix this);;
  constructor (OfArray arr) None None.

(** The local [m] of the source is [acc] here: [m] is the getter. *)
Definition matrixMultiplication (this matrix : t) : result t :=
  outer <-- Array_new (n this);;
  acc0 <-- mapM (fun _ _ =>
                   cols <-- m matrix;;
                   row <-- Array_new cols;;
                   Ok (Array_fill (Num 0) row))
                (Array_fill (Num 0) outer);;
  acc1 <-- for_loop (Ok (n this)) (fun i acc =>
             for_loop (m matrix) (fun j acc =>
               for_loop (m this) (fun k acc =>
                 old <-- get2 acc i j;;
                 a <-- getAt this i k;;
                 b <-- getAt matrix k j;;
                 set2 acc i j (js_add old (js_mul a b)))
               acc)
             acc)
           acc0;;
  constructor (OfArray acc1) None None.

Definition transpose (this : t) : result t :=
  cols <-- m this;;
  outer <-- Array_new cols;;
  matrix0 <-- mapM (fun _ _ => Array_new (n this))
                   (Array_fill (Num 0) outer);;
  matrix1 <-- forEachM (fun row i acc =>
                          Array_forEach (fun x j acc => set2 acc j i x)
                                        row acc)
                       (_matrix this) matrix0;;
  constructor (OfArray matrix1) None None.

End Matrix.

(** ** Vectors and matrices of numbers *)

(** The array literal of the numbers [xs]. *)
Definition numbers (xs : list Z) : array := (fun z => Some (Num z)) <$> xs.

(** [new Vector([x0, x1, ...])] *)
Definition vec (xs : list Z) : Vector.t := Vector.Build (numbers xs).

(** The rows of [new Matrix([[a00, a01, ...], ...])]. *)
Definition mat (A : list (list Z)) : Matrix.t :=
  Matrix.Build (numbers <$> A).

(** [r]-by-[c] rows given cell by cell. *)
Definition tabulate {X} (r c : nat) (g : nat -> nat -> X) : list (list X) :=
  (fun i => g i <$> seq 0 c) <$> seq 0 r.

(** Number of columns of numeric rows: the length of the first. *)
Definition ncols (A : list (list Z)) : nat :=
  match A with
  | row0 :: _ => length row0
  | [] => 0
  end.

(** [A[i][j]], 0 where there is none. *)
Definition entry (A : list (list Z)) (i j : nat) : Z :=
  match A !! i with
  | Some row => default 0%Z (row !! j)
  | None => 0%Z
  end.

(** Numeric rows that make a matrix: at least one row, all rows as long as
    the first, and lengths an array can have. *)
Definition is_matrix (A : list (list Z)) : bool :=
  (0 <? length A)
  && forallb (fun row => length row =? ncols A) A
  && valid_length (Array_length A)
  && valid_length (Z.of_nat (ncols A)).

(** What the specification asks of the operations, on numeric rows. *)

(** Cell [(i, j)] of the product: the sum of [A[i][k] * B[k][j]] over the
    columns [k] of [A], accumulated from 0 in increasing [k]. *)
Definition product_cell (A B : list (list Z)) (i j : nat) : Z :=
  foldl (fun acc k => (acc + entry A i k * entry B k j)%Z) 0%Z
        (seq 0 (ncols A)).

Definition product_rows (A B : list (list Z)) : list (list Z) :=
  tabulate (length A) (ncols B) (product_cell A B).

Definition transpose_rows (A : list (list Z)) : list (list Z) :=
  tabulate (ncols A) (length A) (fun j i => entry A i j).

Definition identity_rows (n : nat) : list (list Z) :=
  tabulate n n (fun i j => if decide (i = j) then 1%Z else 0%Z).

(** ** Auxiliary definitions for the proofs *)

(** The cells [g] with cell [(i, j)] set to [x]. *)
Definition upd {X} (g : nat -> nat -> X) (i j : nat) (x : X)
  : nat -> nat -> X :=
  fun a b => if decide (a = i /\ b = j) then x else g a b.

(** The cells of numeric rows, as slots of arrays. *)
Definition cells (g : nat -> nat -> Z) : nat -> nat -> option value :=
  fun i j => Some (Num (g i j)).

(** The callback of [Vector.add]. *)
Definition add_callback (vector : Vector.t) (x : value) (i : Z)
  : result value :=
  y <-- Vector.getAt vector i;; Ok (js_add x y).

(** The statement of the innermost loop, and the two loops around it. *)
Definition mul_cell (this matrix : Matrix.t) (i j k : Z) (acc : list array)
  : result (list array) :=
  old <-- get2 acc i j;;
  a <-- Matrix.getAt this i k;;
  b <-- Matrix.getAt matrix k j;;
  set2 acc i j (js_add old (js_mul a b)).

Definition mul_column (this matrix : Matrix.t) (i j : Z) (acc : list array)
  : result (list array) :=
  for_loop (Matrix.m this) (mul_cell this matrix i j) acc.

Definition mul_row (this matrix : Matrix.t) (i : Z) (acc : list array)
  : result (list array) :=
  for_loop (Matrix.m matrix) (mul_column this matrix i) acc.

(** The accumulator [m[i][j]] of [matrixMultiplication] after the first [k]
    rounds of the innermost loop, from [s], on cells [a] and [b]. *)
Definition partial_sum (a b : nat -> nat -> Z) (s : Z) (i j k : nat) : Z :=
  foldl (fun acc k' => (acc + a i k' * b k' j)%Z) s (seq 0 k).

(** The cells [s] with the sums of row [i] over [K] columns added. *)
Definition row_done (a b : nat -> nat -> Z) (K : nat) (s : nat -> nat -> Z)
    (i : nat) : nat -> nat -> Z :=
  fun x y => if decide (x = i) then partial_sum a b (s x y) x y K else s x y.


(** Whether [(i, j)] addresses a cell of rows shaped by their first row. *)
Definition in_bounds (rows : list array) (i j : Z) : bool :=
  (0 <=? i)%Z && (i <? Array_length rows)%Z
  && (0 <=? j)%Z
  && (j <? match rows with row0 :: _ => Array_length row0 | [] => 0 end)%Z.

(** The value [scalarProduct] accumulates for numeric elements: the sum of
    [ws[i] * xs[i]] over the indices of [xs], from 0 in increasing [i]. *)
Definition dot (xs ws : list Z) : Z :=
  foldl (fun acc i => (acc + default 0 (ws !! i) * default 0 (xs !! i))%Z)
        0%Z (seq 0 (length xs)).

(** * Properties *)

(** Case analysis on the integer comparisons of a goal. *)
Ltac zcases :=
  repeat (match goal with
          | |- context [(?a >=? ?b)%Z] => rewrite (Z.geb_leb a b)
          | |- context [(?a <? ?b)%Z] => destruct (Z.ltb_spec a b)
          | |- context [(?a <=? ?b)%Z] => destruct (Z.leb_spec a b)
          | |- context [(?a =? ?b)%Z] => destruct (Z.eqb_spec a b)
          end;
          cbn [orb andb negb bind]; try lia).

(** ** The result monad and the loops *)

Lemma foldM_app {A S} (body : A -> S -> result S) l1 l2 s :
  foldM body (l1 ++ l2) s = (s' <-- foldM body l1 s;; foldM body l2 s').
Proof.
  revert s. induction l1 as [|a l1 IH]; intros s; simpl; [reflexivity|].
  destruct (body a s); simpl; auto.
Qed.

Lemma range_of_nat (b : nat) : range (Z.of_nat b) = Z.of_nat <$> seq 0 b.
Proof. unfold range. by rewrite Nat2Z.id. Qed.

Lemma range_app (a b : nat) :
  range (Z.of_nat (a + b)) = range (Z.of_nat a) ++ (Z.of_nat <$> seq a b).
Proof. by rewrite !range_of_nat, seq_app, fmap_app. Qed.

(** A counting loop whose body keeps an invariant [P i], from [P 0] to
    [P b]. *)
Lemma foldM_range_inv {S} (P : nat -> S -> Prop) (body : Z -> S -> result S)
    (b : nat) (s0 : S) :
  P 0 s0 ->
  (forall i s, i < b -> P i s ->
     exists s', body (Z.of_nat i) s = Ok s' /\ P (Datatypes.S i) s') ->
  exists s', foldM body (range (Z.of_nat b)) s0 = Ok s' /\ P b s'.
Proof.
  intros H0 Hstep. induction b as [|b IH].
  - exists s0. split; [reflexivity | assumption].
  - destruct IH as (s1 & Hrun & HP).
    { intros i s Hi. apply Hstep. lia. }
    destruct (Hstep b s1) as (s2 & Hb & HP2); [lia | assumption |].
    exists s2. split; [|assumption].
    replace (Datatypes.S b) with (b + 1) by lia.
    rewrite range_app, foldM_app, Hrun. simpl. by rewrite Hb.
Qed.

(** A counting loop whose first round throws. *)
Lemma foldM_range_first {S} (body : Z -> S -> result S) (b : nat) s e :
  0 < b -> body 0%Z s = Throw e ->
  foldM body (range (Z.of_nat b)) s = Throw e.
Proof.
  intros Hb He. destruct b as [|b]; [lia|].
  rewrite range_of_nat. cbn [seq fmap list_fmap foldM].
  change (Z.of_nat 0) with 0%Z. by rewrite He.
Qed.

(** [mapM] of a callback that never throws. *)
Lemma mapM_from_Ok {A B} (f : A -> Z -> result B) (h : A -> Z -> B) l i :
  (forall a k, f a k = Ok (h a k)) ->
  mapM_from f i l = Ok (imap (fun k a => h a (i + Z.of_nat k)%Z) l).
Proof.
  intros Hf. revert i. induction l as [|a l IH]; intros i; simpl.
  - reflexivity.
  - rewrite Hf, IH. simpl. rewrite Z.add_0_r. do 2 f_equal.
    apply imap_ext. intros k x _. simpl. f_equal. lia.
Qed.

(** ** Arrays of numbers *)

Lemma numbers_length xs : length (numbers xs) = length xs.
Proof. apply length_fmap. Qed.

Lemma numbers_lookup xs (k : nat) x :
  xs !! k = Some x -> numbers xs !! k = Some (Some (Num x)).
Proof. intros H. unfold numbers. by rewrite list_lookup_fmap, H. Qed.

Lemma Array_get_numbers xs (k : nat) x :
  xs !! k = Some x -> Array_get (numbers xs) (Z.of_nat k) = Num x.
Proof.
  intros H. unfold Array_get. zcases.
  by rewrite Nat2Z.id, (numbers_lookup _ _ _ H).
Qed.

Lemma Array_new_valid (k : nat) :
  (Z.of_nat k <= MAX_LENGTH)%Z ->
  Array_new (Z.of_nat k) = Ok (replicate k None).
Proof.
  intros H. unfold Array_new, valid_length.
  rewrite Nat2Z.id. zcases. reflexivity.
Qed.

Lemma Array_fill_replicate v (k : nat) :
  Array_fill v (replicate k None) = replicate k (Some v).
Proof. unfold Array_fill. by rewrite fmap_replicate. Qed.

(** ** [Vector] *)

Lemma Vector_dimension_vec xs :
  Vector.dimension (vec xs) = Z.of_nat (length xs).
Proof.
  unfold Vector.dimension, Array_length. simpl. by rewrite numbers_length.
Qed.

Lemma Vector_getAt_vec xs (k : nat) x :
  xs !! k = Some x -> Vector.getAt (vec xs) (Z.of_nat k) = Ok (Num x).
Proof.
  intros H. unfold Vector.getAt, Vector.checkBounds.
  rewrite Vector_dimension_vec.
  apply lookup_lt_Some in H as Hlt.
  zcases. simpl. by rewrite (Array_get_numbers _ _ _ H).
Qed.

Lemma Vector_getAt_vec_beyond xs (k : nat) :
  length xs <= k -> Vector.getAt (vec xs) (Z.of_nat k) = Throw IndexOutOfBounds.
Proof.
  intros H. unfold Vector.getAt, Vector.checkBounds.
  rewrite Vector_dimension_vec.
  zcases. reflexivity.
Qed.

Lemma add_map_from_fits ws xs (k : nat) :
  k + length xs <= length ws ->
  map_from (add_callback (vec ws)) (Z.of_nat k) (numbers xs)
  = Ok (numbers (zip_with Z.add xs (drop k ws))).
Proof.
  revert k. induction xs as [|x xs IH]; intros k Hk; simpl in *.
  - reflexivity.
  - destruct (lookup_lt_is_Some_2 ws k) as [w Hw]; [lia|].
    unfold add_callback at 1. rewrite (Vector_getAt_vec _ _ _ Hw). simpl.
    replace (Z.of_nat k + 1)%Z with (Z.of_nat (S k)) by lia.
    rewrite IH by lia. simpl.
    by rewrite (drop_S _ _ _ Hw).
Qed.

Lemma add_map_from_short ws xs (k : nat) :
  k <= length ws -> length ws < k + length xs ->
  map_from (add_callback (vec ws)) (Z.of_nat k) (numbers xs)
  = Throw IndexOutOfBounds.
Proof.
  revert k. induction xs as [|x xs IH]; intros k Hk1 Hk2; simpl in *; [lia|].
  unfold add_callback at 1.
  destruct (decide (k = length ws)) as [->|Hne].
  - by rewrite Vector_getAt_vec_beyond.
  - destruct (lookup_lt_is_Some_2 ws k) as [w Hw]; [lia|].
    rewrite (Vector_getAt_vec _ _ _ Hw). simpl.
    replace (Z.of_nat k + 1)%Z with (Z.of_nat (S k)) by lia.
    by rewrite IH by lia.
Qed.

Lemma Vector_add_fits xs ws :
  length xs <= length ws ->
  Vector.add (vec xs) (vec ws) = Ok (vec (zip_with Z.add xs ws)).
Proof.
  intros H. unfold Vector.add, Vector.map, Array_map. simpl.
  change 0%Z with (Z.of_nat 0).
  change (fun x i => y <-- Vector.getAt (vec ws) i;; Ok (js_add x y))
    with (add_callback (vec ws)).
  by rewrite add_map_from_fits.
Qed.

Lemma Vector_add_short xs ws :
  length ws < length xs ->
  Vector.add (vec xs) (vec ws) = Throw IndexOutOfBounds.
Proof.
  intros H. unfold Vector.add, Vector.map, Array_map. simpl.
  change 0%Z with (Z.of_nat 0).
  change (fun x i => y <-- Vector.getAt (vec ws) i;; Ok (js_add x y))
    with (add_callback (vec ws)).
  by rewrite add_map_from_short by lia.
Qed.

(** ** Rows given cell by cell *)

Section Tabulate.
Context {X : Type}.
Implicit Types (g : nat -> nat -> X) (r c i j : nat).

Lemma tabulate_length r c g : length (tabulate r c g) = r.
Proof. unfold tabulate. by rewrite length_fmap, length_seq. Qed.

Lemma tabulate_lookup r c g i :
  i < r -> tabulate r c g !! i = Some (g i <$> seq 0 c).
Proof.
  intros H. unfold tabulate. by rewrite list_lookup_fmap, lookup_seq_lt.
Qed.

Lemma tabulate_head r c g :
  0 < r -> exists rest, tabulate r c g = (g 0 <$> seq 0 c) :: rest.
Proof. intros H. destruct r; [lia|]. unfold tabulate. simpl. eauto. Qed.

Lemma tabulate_row_lookup c (h : nat -> X) j :
  j < c -> (h <$> seq 0 c) !! j = Some (h j).
Proof. intros H. by rewrite list_lookup_fmap, lookup_seq_lt. Qed.

Lemma tabulate_ext r c g g' :
  (forall i j, i < r -> j < c -> g i j = g' i j) ->
  tabulate r c g = tabulate r c g'.
Proof.
  intros H. unfold tabulate. apply list_fmap_ext. intros k i Hk.
  apply lookup_seq in Hk as [-> Hi]. apply list_fmap_ext. intros k' j Hk'.
  apply lookup_seq in Hk' as [-> Hj]. apply H; lia.
Qed.

Lemma replicate_tabulate r c (x : X) :
  replicate r (replicate c x) = tabulate r c (fun _ _ => x).
Proof.
  unfold tabulate.
  assert (Hrow : forall n (y : X), replicate n y = (fun _ => y) <$> seq 0 n).
  { intros n y. generalize 0. induction n as [|n IH]; intros s; simpl;
      [reflexivity | by rewrite <- IH]. }
  rewrite <- Hrow.
  generalize 0. induction r as [|r IH]; intros s; simpl;
    [reflexivity | by rewrite <- IH].
Qed.

Lemma insert_row c (h : nat -> X) j x :
  j < c ->
  <[j := x]> (h <$> seq 0 c)
  = (fun b => if decide (b = j) then x else h b) <$> seq 0 c.
Proof.
  intros Hj. apply list_eq. intros b.
  destruct (decide (b < c)) as [Hb|Hb].
  - rewrite (tabulate_row_lookup _ _ _ Hb).
    destruct (decide (b = j)) as [->|Hne].
    + rewrite list_lookup_insert_eq; [reflexivity|].
      by rewrite length_fmap, length_seq.
    + rewrite list_lookup_insert_ne by congruence.
      by rewrite (tabulate_row_lookup _ _ _ Hb).
  - by rewrite !lookup_ge_None_2
      by (rewrite ?length_insert, ?length_fmap, ?length_seq; lia).
Qed.

Lemma insert_tabulate r c g i j x :
  i < r -> j < c ->
  <[i := <[j := x]> (g i <$> seq 0 c)]> (tabulate r c g)
  = tabulate r c (upd g i j x).
Proof.
  intros Hi Hj. rewrite insert_row by assumption.
  apply list_eq. intros a.
  destruct (decide (a < r)) as [Ha|Ha].
  - rewrite (tabulate_lookup _ _ _ _ Ha).
    destruct (decide (a = i)) as [->|Hne].
    + rewrite list_lookup_insert_eq by (by rewrite tabulate_length).
      f_equal. apply list_fmap_ext. intros k b Hk. unfold upd.
      destruct (decide (b = j)), (decide (i = i /\ b = j)); tauto.
    + rewrite list_lookup_insert_ne by congruence.
      rewrite (tabulate_lookup _ _ _ _ Ha).
      f_equal. apply list_fmap_ext. intros k b Hk. unfold upd.
      destruct (decide (a = i /\ b = j)); tauto.
  - by rewrite !lookup_ge_None_2
      by (rewrite ?length_insert, ?tabulate_length; lia).
Qed.

End Tabulate.

Lemma fmap_tabulate {X Y} (h : X -> Y) r c (g : nat -> nat -> X) :
  fmap (M := list) h <$> tabulate r c g = tabulate r c (fun i j => h (g i j)).
Proof.
  unfold tabulate. rewrite <- list_fmap_compose.
  apply list_fmap_ext. intros k i _. simpl.
  by rewrite <- list_fmap_compose.
Qed.

(** ** Numeric rows *)

Lemma is_matrix_inv A :
  is_matrix A = true ->
  0 < length A
  /\ (forall i row, A !! i = Some row -> length row = ncols A)
  /\ (Z.of_nat (length A) <= MAX_LENGTH)%Z
  /\ (Z.of_nat (ncols A) <= MAX_LENGTH)%Z.
Proof.
  unfold is_matrix, valid_length, Array_length.
  generalize (length A) (ncols A). intros n c H.
  repeat match goal with
    | Hb : _ && _ = true |- _ => apply andb_prop in Hb as [? ?]
    end.
  rewrite forallb_forall in *.
  repeat split; try (apply Nat.ltb_lt; assumption);
    try (apply Z.leb_le; assumption).
  intros i row Hrow.
  match goal with Hall : forall x, In x A -> _ |- _ =>
    apply Nat.eqb_eq, Hall, list_elem_of_In, list_elem_of_lookup
  end.
  eauto.
Qed.

Lemma entry_lookup A i j row x :
  A !! i = Some row -> row !! j = Some x -> entry A i j = x.
Proof. intros H1 H2. unfold entry. by rewrite H1, H2. Qed.

Lemma rows_tabulate A :
  is_matrix A = true -> A = tabulate (length A) (ncols A) (entry A).
Proof.
  intros H. apply is_matrix_inv in H as (_ & Hrect & _).
  apply list_eq. intros i. destruct (A !! i) as [row|] eqn:Hrow.
  - apply lookup_lt_Some in Hrow as Hi.
    rewrite (tabulate_lookup _ _ _ _ Hi). f_equal.
    apply list_eq. intros j. specialize (Hrect _ _ Hrow).
    destruct (row !! j) as [x|] eqn:Hx.
    + apply lookup_lt_Some in Hx as Hj. rewrite Hrect in Hj.
      rewrite (tabulate_row_lookup _ _ _ Hj).
      by rewrite (entry_lookup _ _ _ _ _ Hrow Hx).
    + apply lookup_ge_None in Hx. symmetry. apply lookup_ge_None.
      rewrite length_fmap, length_seq. lia.
  - apply lookup_ge_None in Hrow. symmetry. apply lookup_ge_None.
    rewrite tabulate_length. lia.
Qed.

Lemma numbers_tabulate r c (g : nat -> nat -> Z) :
  numbers <$> tabulate r c g = tabulate r c (cells g).
Proof. unfold numbers. apply (fmap_tabulate (fun z => Some (Num z))). Qed.

Lemma mat_tabulate A :
  is_matrix A = true ->
  mat A = Matrix.Build (tabulate (length A) (ncols A) (cells (entry A))).
Proof.
  intros H. unfold mat. f_equal.
  rewrite <- numbers_tabulate. f_equal. by apply rows_tabulate.
Qed.

(** ** [Matrix]: shape, bounds and element access *)

Section MatrixAccess.
Context (r c : nat) (g : nat -> nat -> option value).

Let M : Matrix.t := Matrix.Build (tabulate r c g).

Lemma Matrix_n_tabulate : Matrix.n M = Z.of_nat r.
Proof. unfold Matrix.n, Array_length. simpl. by rewrite tabulate_length. Qed.

Lemma Matrix_m_tabulate : 0 < r -> Matrix.m M = Ok (Z.of_nat c).
Proof.
  intros H. destruct (tabulate_head r c g H) as [rest Heq].
  unfold Matrix.m, M. simpl. rewrite Heq. unfold Array_length.
  by rewrite length_fmap, length_seq.
Qed.

Lemma Matrix_checkBounds_tabulate i j :
  i < r -> j < c ->
  Matrix.checkBounds M (Z.of_nat i) (Z.of_nat j) = Ok tt.
Proof.
  intros Hi Hj. unfold Matrix.checkBounds.
  rewrite Matrix_n_tabulate, Matrix_m_tabulate by lia.
  zcases. reflexivity.
Qed.

Lemma Matrix_checkBounds_row_beyond i (j : Z) :
  r <= i ->
  Matrix.checkBounds M (Z.of_nat i) j = Throw IndexOutOfBounds.
Proof.
  intros Hi. unfold Matrix.checkBounds. rewrite Matrix_n_tabulate.
  zcases; reflexivity.
Qed.

Lemma get2_tabulate i j :
  i < r -> j < c ->
  get2 (tabulate r c g) (Z.of_nat i) (Z.of_nat j)
  = Ok (default Undefined (g i j)).
Proof.
  intros Hi Hj. unfold get2, Array_get. zcases.
  rewrite !Nat2Z.id, (tabulate_lookup _ _ _ _ Hi).
  rewrite (tabulate_row_lookup _ _ _ Hj). by destruct (g i j).
Qed.

Lemma set2_tabulate i j v :
  i < r -> j < c -> (Z.of_nat c <= MAX_LENGTH)%Z ->
  set2 (tabulate r c g) (Z.of_nat i) (Z.of_nat j) v
  = Ok (tabulate r c (upd g i j (Some v))).
Proof.
  intros Hi Hj Hc. unfold set2, Array_set. zcases.
  rewrite !Nat2Z.id, (tabulate_lookup _ _ _ _ Hi).
  rewrite length_fmap, length_seq.
  destruct (decide (j < c)) as [_|]; [|lia].
  by rewrite insert_tabulate.
Qed.

Lemma Matrix_getAt_tabulate i j :
  i < r -> j < c ->
  Matrix.getAt M (Z.of_nat i) (Z.of_nat j) = Ok (default Undefined (g i j)).
Proof.
  intros Hi Hj. unfold Matrix.getAt.
  rewrite Matrix_checkBounds_tabulate by assumption. simpl.
  by apply get2_tabulate.
Qed.

Lemma Matrix_getAt_row_beyond i (j : Z) :
  r <= i -> Matrix.getAt M (Z.of_nat i) j = Throw IndexOutOfBounds.
Proof.
  intros Hi. unfold Matrix.getAt.
  by rewrite Matrix_checkBounds_row_beyond.
Qed.

Lemma assertValidity_tabulate :
  0 < r -> Matrix.assertValidity (tabulate r c g) = Ok tt.
Proof.
  intros H.
  assert (Hall : forallb (fun row => (Array_length row =? Z.of_nat c)%Z)
                         (tabulate r c g) = true).
  { apply forallb_forall. intros row Hrow.
    apply list_elem_of_In, list_elem_of_lookup in Hrow as [i Hrow].
    apply lookup_lt_Some in Hrow as Hi. rewrite tabulate_length in Hi.
    rewrite (tabulate_lookup _ _ _ _ Hi) in Hrow. injection Hrow as <-.
    unfold Array_length. rewrite length_fmap, length_seq.
    apply Z.eqb_refl. }
  destruct (tabulate_head r c g H) as [rest Heq]. rewrite Heq in *.
  unfold Matrix.assertValidity.
  replace (Array_length (g 0 <$> seq 0 c)) with (Z.of_nat c)
    by (unfold Array_length; by rewrite length_fmap, length_seq).
  by rewrite Hall.
Qed.

Lemma Matrix_constructor_tabulate :
  0 < r ->
  Matrix.constructor (Matrix.OfArray (tabulate r c g)) None None = Ok M.
Proof.
  intros H. unfold Matrix.constructor.
  by rewrite assertValidity_tabulate.
Qed.

End MatrixAccess.

(** ** The filled-by-value constructor *)

Lemma imap_constant {A B} (y : B) (l : list A) :
  imap (fun _ _ => y) l = replicate (length l) y.
Proof.
  induction l as [|a l IH]; [reflexivity|].
  rewrite imap_cons. simpl. f_equal. apply IH.
Qed.

Lemma mapM_constant {A B} (row : result B) (y : B) (l : list A) :
  row = Ok y ->
  mapM (fun _ _ => row) l = Ok (replicate (length l) y).
Proof.
  intros ->. unfold mapM.
  rewrite (mapM_from_Ok _ (fun _ _ => y)) by reflexivity.
  by rewrite imap_constant.
Qed.

(** The rows [new Array(n).fill(0).map(() => row)] for a [row] that
    evaluates to [y]. *)
Lemma filled_rows (n : nat) (row : result array) (y : array) :
  (Z.of_nat n <= MAX_LENGTH)%Z ->
  row = Ok y ->
  (outer <-- Array_new (Z.of_nat n);;
   mapM (fun _ _ => row) (Array_fill (Num 0) outer))
  = Ok (replicate n y).
Proof.
  intros Hn Hrow. rewrite Array_new_valid by assumption. simpl.
  rewrite Array_fill_replicate, (mapM_constant _ y) by assumption.
  by rewrite length_replicate.
Qed.

Lemma Matrix_constructor_fill (n c : nat) (fillValue : Z) arg1 arg2 :
  (Z.of_nat n <= MAX_LENGTH)%Z ->
  (Z.of_nat c <= MAX_LENGTH)%Z ->
  match arg2 with None => Some (Z.of_nat n) | Some _ => arg1 end
  = Some (Z.of_nat c) ->
  default 0%Z arg2 = fillValue ->
  Matrix.constructor (Matrix.OfNumber (Z.of_nat n)) arg1 arg2
  = Ok (Matrix.Build (tabulate n c (fun _ _ => Some (Num fillValue)))).
Proof.
  intros Hn Hc Hm Hv. unfold Matrix.constructor. rewrite Hm, Hv.
  rewrite Array_new_valid by assumption. cbn [bind].
  rewrite Array_fill_replicate.
  rewrite (mapM_constant _ (replicate c (Some (Num fillValue)))).
  - cbn [bind]. by rewrite length_replicate, replicate_tabulate.
  - unfold Array_new_arg. rewrite Array_new_valid by assumption. cbn [bind].
    by rewrite Array_fill_replicate.
Qed.

(** ** Matrix multiplication *)

Lemma matrixMultiplication_unfold this matrix :
  Matrix.matrixMultiplication this matrix
  = (acc0 <-- (outer <-- Array_new (Matrix.n this);;
               mapM (fun _ _ =>
                       cols <-- Matrix.m matrix;;
                       row <-- Array_new cols;;
                       Ok (Array_fill (Num 0) row))
                    (Array_fill (Num 0) outer));;
     acc1 <-- for_loop (Ok (Matrix.n this)) (mul_row this matrix) acc0;;
     Matrix.constructor (Matrix.OfArray acc1) None None).
Proof.
  unfold Matrix.matrixMultiplication.
  destruct (Array_new (Matrix.n this)); reflexivity.
Qed.

Section Product.
(** The receiver is [n]-by-[K] with cells [a], the operand [KB]-by-[p]
    with cells [b]. *)
Context (n K KB p : nat) (a b : nat -> nat -> Z).
Context (Hn : 0 < n) (HKB : 0 < KB).
Context (Hn_max : (Z.of_nat n <= MAX_LENGTH)%Z).
Context (Hp_max : (Z.of_nat p <= MAX_LENGTH)%Z).

Let this : Matrix.t := Matrix.Build (tabulate n K (cells a)).
Let matrix : Matrix.t := Matrix.Build (tabulate KB p (cells b)).

Lemma product_this_n : Matrix.n this = Z.of_nat n.
Proof. apply Matrix_n_tabulate. Qed.

Lemma product_this_m : Matrix.m this = Ok (Z.of_nat K).
Proof. by apply Matrix_m_tabulate. Qed.

Lemma product_matrix_m : Matrix.m matrix = Ok (Z.of_nat p).
Proof. by apply Matrix_m_tabulate. Qed.

Lemma partial_sum_S s i j k :
  partial_sum a b s i j (S k) = (partial_sum a b s i j k + a i k * b k j)%Z.
Proof. unfold partial_sum. by rewrite seq_S, foldl_app. Qed.

Lemma upd_cells (s : nat -> nat -> Z) i j v x y :
  upd (cells s) i j (Some (Num v)) x y = cells (upd s i j v) x y.
Proof. unfold upd, cells. by destruct (decide (x = i /\ y = j)). Qed.

Lemma mul_cell_step s i j k :
  i < n -> j < p -> k < K -> k < KB ->
  mul_cell this matrix (Z.of_nat i) (Z.of_nat j) (Z.of_nat k)
           (tabulate n p (cells s))
  = Ok (tabulate n p (cells (upd s i j (s i j + a i k * b k j)%Z))).
Proof.
  intros Hi Hj Hk HkB. unfold mul_cell, this, matrix.
  rewrite get2_tabulate by assumption. cbn [bind].
  rewrite !Matrix_getAt_tabulate by assumption. cbn [bind].
  rewrite set2_tabulate by assumption. f_equal.
  apply tabulate_ext. intros x y _ _. apply upd_cells.
Qed.

Lemma mul_cells_loop s i j k :
  i < n -> j < p -> k <= K -> k <= KB ->
  foldM (mul_cell this matrix (Z.of_nat i) (Z.of_nat j))
        (range (Z.of_nat k)) (tabulate n p (cells s))
  = Ok (tabulate n p (cells (upd s i j (partial_sum a b (s i j) i j k)))).
Proof.
  intros Hi Hj. induction k as [|k IH]; intros Hk HkB.
  - simpl. f_equal. apply tabulate_ext. intros x y _ _.
    unfold cells, upd, partial_sum. simpl.
    by destruct (decide (x = i /\ y = j)) as [[-> ->]|].
  - replace (S k) with (k + 1) at 1 by lia.
    rewrite range_app, foldM_app, IH by lia. simpl.
    rewrite mul_cell_step by lia. cbn [bind]. f_equal.
    apply tabulate_ext. intros x y _ _. rewrite partial_sum_S.
    unfold cells, upd.
    destruct (decide (x = i /\ y = j)) as [[-> ->]|]; [|reflexivity].
    destruct (decide (i = i /\ j = j)); [reflexivity | tauto].
Qed.

Lemma mul_column_ok s i j :
  i < n -> j < p -> K <= KB ->
  mul_column this matrix (Z.of_nat i) (Z.of_nat j) (tabulate n p (cells s))
  = Ok (tabulate n p (cells (upd s i j (partial_sum a b (s i j) i j K)))).
Proof.
  intros Hi Hj HK. unfold mul_column, for_loop.
  rewrite product_this_m. cbn [bind].
  by apply mul_cells_loop.
Qed.

Lemma mul_column_fails s i j :
  i < n -> j < p -> KB < K ->
  mul_column this matrix (Z.of_nat i) (Z.of_nat j) (tabulate n p (cells s))
  = Throw IndexOutOfBounds.
Proof.
  intros Hi Hj HK. unfold mul_column, for_loop.
  rewrite product_this_m. cbn [bind].
  replace K with (KB + S (K - S KB)) at 1 by lia.
  rewrite range_app, foldM_app, mul_cells_loop by lia.
  cbn [bind seq fmap list_fmap foldM].
  unfold mul_cell at 1. rewrite get2_tabulate by assumption. cbn [bind].
  unfold this at 1. rewrite Matrix_getAt_tabulate by lia. cbn [bind].
  unfold matrix at 1. by rewrite Matrix_getAt_row_beyond.
Qed.

Lemma mul_row_ok s i :
  i < n -> K <= KB ->
  mul_row this matrix (Z.of_nat i) (tabulate n p (cells s))
  = Ok (tabulate n p (cells (row_done a b K s i))).
Proof.
  intros Hi HK. unfold mul_row, for_loop.
  rewrite product_matrix_m. cbn [bind].
  destruct (foldM_range_inv
    (fun j acc =>
       acc = tabulate n p
               (cells (fun x y =>
                  if decide (x = i /\ y < j)
                  then partial_sum a b (s x y) x y K else s x y)))
    (mul_column this matrix (Z.of_nat i)) p (tabulate n p (cells s)))
    as (acc & -> & ->).
  - apply tabulate_ext. intros x y _ _. unfold cells.
    destruct (decide (x = i /\ y < 0)); [lia | reflexivity].
  - intros j acc Hj ->. eexists. split; [by apply mul_column_ok|].
    apply tabulate_ext. intros x y _ _. unfold cells, upd. do 2 f_equal.
    destruct (decide (x = i /\ y = j)) as [[-> ->]|Hne].
    + destruct (decide (i = i /\ j < j)); [lia|].
      destruct (decide (i = i /\ j < S j)); [reflexivity | lia].
    + destruct (decide (x = i /\ y < j)), (decide (x = i /\ y < S j));
        try reflexivity; lia.
  - f_equal. apply tabulate_ext. intros x y _ Hy. unfold cells, row_done.
    do 2 f_equal.
    destruct (decide (x = i /\ y < p)), (decide (x = i));
      try reflexivity; lia.
Qed.

Lemma mul_row_fails s i :
  i < n -> 0 < p -> KB < K ->
  mul_row this matrix (Z.of_nat i) (tabulate n p (cells s))
  = Throw IndexOutOfBounds.
Proof.
  intros Hi Hp HK. unfold mul_row, for_loop.
  rewrite product_matrix_m. cbn [bind].
  apply foldM_range_first; [assumption|].
  change 0%Z with (Z.of_nat 0). by apply mul_column_fails.
Qed.

Lemma mul_rows_ok :
  K <= KB ->
  foldM (mul_row this matrix) (range (Z.of_nat n))
        (tabulate n p (cells (fun _ _ => 0%Z)))
  = Ok (tabulate n p (cells (fun x y => partial_sum a b 0 x y K))).
Proof.
  intros HK.
  destruct (foldM_range_inv
    (fun i acc =>
       acc = tabulate n p
               (cells (fun x y =>
                  if decide (x < i) then partial_sum a b 0 x y K else 0%Z)))
    (mul_row this matrix) n (tabulate n p (cells (fun _ _ => 0%Z))))
    as (acc & -> & ->).
  - apply tabulate_ext. intros x y _ _. unfold cells.
    destruct (decide (x < 0)); [lia | reflexivity].
  - intros i acc Hi ->. eexists. split; [by apply mul_row_ok|].
    apply tabulate_ext. intros x y _ _. unfold cells, row_done.
    do 2 f_equal.
    destruct (decide (x = i)) as [->|Hne].
    + destruct (decide (i < i)); [lia|].
      destruct (decide (i < S i)); [reflexivity | lia].
    + destruct (decide (x < i)), (decide (x < S i));
        try reflexivity; lia.
  - f_equal. apply tabulate_ext. intros x y Hx _. unfold cells.
    destruct (decide (x < n)); [reflexivity | lia].
Qed.

Lemma mul_accumulator :
  (outer <-- Array_new (Matrix.n this);;
   mapM (fun _ _ =>
           cols <-- Matrix.m matrix;;
           row <-- Array_new cols;;
           Ok (Array_fill (Num 0) row))
        (Array_fill (Num 0) outer))
  = Ok (tabulate n p (cells (fun _ _ => 0%Z))).
Proof.
  rewrite product_this_n.
  rewrite (filled_rows n _ (replicate p (Some (Num 0)))).
  - by rewrite replicate_tabulate.
  - assumption.
  - rewrite product_matrix_m. cbn [bind].
    rewrite Array_new_valid by assumption. cbn [bind].
    by rewrite Array_fill_replicate.
Qed.

Lemma Matrix_product_tabulate :
  K <= KB ->
  Matrix.matrixMultiplication this matrix
  = Ok (Matrix.Build
          (tabulate n p (cells (fun x y => partial_sum a b 0 x y K)))).
Proof.
  intros HK. rewrite matrixMultiplication_unfold, mul_accumulator.
  cbn [bind]. unfold for_loop. cbn [bind].
  rewrite product_this_n.
  rewrite mul_rows_ok by assumption. cbn [bind].
  by apply Matrix_constructor_tabulate.
Qed.

Lemma Matrix_product_fails :
  KB < K -> 0 < p ->
  Matrix.matrixMultiplication this matrix = Throw IndexOutOfBounds.
Proof.
  intros HK Hp. rewrite matrixMultiplication_unfold, mul_accumulator.
  cbn [bind]. unfold for_loop. cbn [bind].
  rewrite product_this_n.
  rewrite (foldM_range_first _ _ _ IndexOutOfBounds);
    [reflexivity | assumption |].
  change 0%Z with (Z.of_nat 0). by apply mul_row_fails.
Qed.

End Product.

Lemma is_matrix_tabulate r c (g : nat -> nat -> Z) :
  0 < r -> (Z.of_nat r <= MAX_LENGTH)%Z -> (Z.of_nat c <= MAX_LENGTH)%Z ->
  is_matrix (tabulate r c g) = true.
Proof.
  intros Hr Hrm Hcm.
  assert (Hc : ncols (tabulate r c g) = c).
  { destruct (tabulate_head r c g Hr) as [rest ->]. simpl.
    by rewrite length_fmap, length_seq. }
  unfold is_matrix, valid_length, Array_length.
  rewrite Hc, tabulate_length.
  assert (Hall : forallb (fun row => length row =? c) (tabulate r c g) = true).
  { apply forallb_forall. intros row Hrow.
    apply list_elem_of_In, list_elem_of_lookup in Hrow as [i Hrow].
    apply lookup_lt_Some in Hrow as Hi. rewrite tabulate_length in Hi.
    rewrite (tabulate_lookup _ _ _ _ Hi) in Hrow. injection Hrow as <-.
    rewrite length_fmap, length_seq. apply Nat.eqb_refl. }
  rewrite Hall. apply Nat.ltb_lt in Hr. rewrite Hr.
  zcases; reflexivity.
Qed.

Lemma ncols_tabulate r c (g : nat -> nat -> Z) :
  0 < r -> ncols (tabulate r c g) = c.
Proof.
  intros Hr. destruct (tabulate_head r c g Hr) as [rest ->]. simpl.
  by rewrite length_fmap, length_seq.
Qed.

Lemma entry_tabulate r c (g : nat -> nat -> Z) i j :
  i < r -> j < c -> entry (tabulate r c g) i j = g i j.
Proof.
  intros Hi Hj. unfold entry.
  by rewrite (tabulate_lookup _ _ _ _ Hi), (tabulate_row_lookup _ _ _ Hj).
Qed.

(** The product of numeric matrices, when the operand has at least as many
    rows as the receiver has columns. *)
Lemma Matrix_product_rows A B :
  is_matrix A = true -> is_matrix B = true -> ncols A <= length B ->
  Matrix.matrixMultiplication (mat A) (mat B) = Ok (mat (product_rows A B)).
Proof.
  intros HA HB HK.
  rewrite (mat_tabulate A HA), (mat_tabulate B HB).
  apply is_matrix_inv in HA as (HnA & _ & HmaxA & _).
  apply is_matrix_inv in HB as (HnB & _ & _ & HmaxB).
  rewrite Matrix_product_tabulate by assumption.
  unfold mat, product_rows. by rewrite numbers_tabulate.
Qed.

(** ... and when it has fewer, and a column to compute. *)
Lemma Matrix_product_beyond A B :
  is_matrix A = true -> is_matrix B = true ->
  length B < ncols A -> 0 < ncols B ->
  Matrix.matrixMultiplication (mat A) (mat B) = Throw IndexOutOfBounds.
Proof.
  intros HA HB HK Hp.
  rewrite (mat_tabulate A HA), (mat_tabulate B HB).
  apply is_matrix_inv in HA as (HnA & _ & HmaxA & _).
  apply is_matrix_inv in HB as (HnB & _ & _ & HmaxB).
  by apply Matrix_product_fails.
Qed.

(** ** Invariants of [forEach] *)

(** [forEach] on an array without holes, elements [h k], [h (k+1)], ... *)
Lemma forEach_from_inv {S} (P : nat -> S -> Prop) (h : nat -> value)
    (f : value -> Z -> S -> result S) (c k : nat) (s : S) :
  P k s ->
  (forall j s, k <= j < k + c -> P j s ->
     exists s', f (h j) (Z.of_nat j) s = Ok s' /\ P (Datatypes.S j) s') ->
  exists s',
    forEach_from f (Z.of_nat k) ((fun j => Some (h j)) <$> seq k c) s = Ok s'
    /\ P (k + c) s'.
Proof.
  revert k s. induction c as [|c IH]; intros k s HP Hstep.
  - exists s. split; [reflexivity|]. by rewrite Nat.add_0_r.
  - destruct (Hstep k s) as (s1 & Hf & HP1); [lia | assumption |].
    destruct (IH (Datatypes.S k) s1) as (s2 & Hrun & HP2); [assumption | |].
    { intros j s' Hj. apply Hstep. lia. }
    exists s2. split.
    + cbn [seq fmap list_fmap forEach_from]. rewrite Hf. cbn [bind].
      replace (Z.of_nat k + 1)%Z with (Z.of_nat (Datatypes.S k)) by lia.
      exact Hrun.
    + by replace (k + Datatypes.S c) with (Datatypes.S k + c) by lia.
Qed.

(** The same on an outer array of rows [h k], [h (k+1)], ... *)
Lemma forEachM_from_inv {A S} (P : nat -> S -> Prop) (h : nat -> A)
    (f : A -> Z -> S -> result S) (c k : nat) (s : S) :
  P k s ->
  (forall i s, k <= i < k + c -> P i s ->
     exists s', f (h i) (Z.of_nat i) s = Ok s' /\ P (Datatypes.S i) s') ->
  exists s',
    forEachM_from f (Z.of_nat k) (h <$> seq k c) s = Ok s' /\ P (k + c) s'.
Proof.
  revert k s. induction c as [|c IH]; intros k s HP Hstep.
  - exists s. split; [reflexivity|]. by rewrite Nat.add_0_r.
  - destruct (Hstep k s) as (s1 & Hf & HP1); [lia | assumption |].
    destruct (IH (Datatypes.S k) s1) as (s2 & Hrun & HP2); [assumption | |].
    { intros j s' Hj. apply Hstep. lia. }
    exists s2. split.
    + cbn [seq fmap list_fmap forEachM_from]. rewrite Hf. cbn [bind].
      replace (Z.of_nat k + 1)%Z with (Z.of_nat (Datatypes.S k)) by lia.
      exact Hrun.
    + by replace (k + Datatypes.S c) with (Datatypes.S k + c) by lia.
Qed.

(** ** Transposition *)

Section Transpose.
(** The receiver is [n]-by-[m] with cells [a]. *)
Context (n m : nat) (a : nat -> nat -> Z).
Context (Hn : 0 < n) (Hm : 0 < m).
Context (Hn_max : (Z.of_nat n <= MAX_LENGTH)%Z).
Context (Hm_max : (Z.of_nat m <= MAX_LENGTH)%Z).

Let this : Matrix.t := Matrix.Build (tabulate n m (cells a)).

Lemma transpose_row (g : nat -> nat -> option value) i :
  i < n ->
  Array_forEach (fun x j acc => set2 acc j (Z.of_nat i) x)
                (cells a i <$> seq 0 m) (tabulate m n g)
  = Ok (tabulate m n
          (fun x y => if decide (y = i) then Some (Num (a i x)) else g x y)).
Proof.
  intros Hi. unfold Array_forEach, cells.
  destruct (forEach_from_inv
    (fun j acc =>
       acc = tabulate m n
               (fun x y => if decide (y = i /\ x < j)
                           then Some (Num (a i x)) else g x y))
    (fun j => Num (a i j))
    (fun x j acc => set2 acc j (Z.of_nat i) x) m 0 (tabulate m n g))
    as (acc & Hrun & ->).
  - apply tabulate_ext. intros x y _ _.
    destruct (decide (y = i /\ x < 0)); [lia | reflexivity].
  - intros j acc Hj ->. eexists. split.
    + apply set2_tabulate; [lia | assumption | assumption].
    + apply tabulate_ext. intros x y _ _. unfold upd.
      destruct (decide (x = j /\ y = i)) as [[-> ->]|Hne].
      * destruct (decide (i = i /\ j < Datatypes.S j)); [reflexivity | lia].
      * destruct (decide (y = i /\ x < j)),
          (decide (y = i /\ x < Datatypes.S j)); try reflexivity; lia.
  - change (Z.of_nat 0) with 0%Z in Hrun. cbv beta in Hrun. rewrite Hrun.
    f_equal. apply tabulate_ext. intros x y Hx _. simpl.
    destruct (decide (y = i /\ x < m)), (decide (y = i));
      try reflexivity; lia.
Qed.

Lemma transpose_rows_loop :
  forEachM (fun row i acc =>
              Array_forEach (fun x j acc => set2 acc j i x) row acc)
           (tabulate n m (cells a)) (tabulate m n (fun _ _ => None))
  = Ok (tabulate m n (cells (fun x y => a y x))).
Proof.
  unfold forEachM, tabulate at 1.
  destruct (forEachM_from_inv
    (fun i acc =>
       acc = tabulate m n
               (fun x y => if decide (y < i)
                           then Some (Num (a y x)) else None))
    (fun i => cells a i <$> seq 0 m)
    (fun row i acc =>
       Array_forEach (fun x j acc => set2 acc j i x) row acc)
    n 0 (tabulate m n (fun _ _ => None)))
    as (acc & Hrun & ->).
  - apply tabulate_ext. intros x y _ _.
    destruct (decide (y < 0)); [lia | reflexivity].
  - intros i acc Hi ->. eexists. split.
    + apply transpose_row. lia.
    + apply tabulate_ext. intros x y _ _.
      destruct (decide (y = i)) as [->|Hne].
      * destruct (decide (i < Datatypes.S i)); [reflexivity | lia].
      * destruct (decide (y < i)), (decide (y < Datatypes.S i));
          try reflexivity; lia.
  - change (Z.of_nat 0) with 0%Z in Hrun. rewrite Hrun.
    f_equal. apply tabulate_ext. intros x y _ Hy. simpl. unfold cells.
    destruct (decide (y < n)); [reflexivity | lia].
Qed.

Lemma Matrix_transpose_tabulate :
  Matrix.transpose this
  = Ok (Matrix.Build (tabulate m n (cells (fun x y => a y x)))).
Proof.
  unfold Matrix.transpose.
  assert (Hcols : Matrix.m this = Ok (Z.of_nat m))
    by (by apply Matrix_m_tabulate).
  assert (Hrows : Matrix.n this = Z.of_nat n) by apply Matrix_n_tabulate.
  rewrite Hcols, Hrows. cbn [bind].
  rewrite Array_new_valid by assumption. cbn [bind].
  rewrite Array_fill_replicate.
  rewrite (mapM_constant _ (replicate n None))
    by (by apply Array_new_valid).
  cbn [bind]. rewrite length_replicate, replicate_tabulate.
  unfold this. cbn [Matrix._matrix].
  rewrite transpose_rows_loop. cbn [bind].
  by apply Matrix_constructor_tabulate.
Qed.

End Transpose.

Lemma Matrix_transpose_rows A :
  is_matrix A = true -> 0 < ncols A ->
  Matrix.transpose (mat A) = Ok (mat (transpose_rows A)).
Proof.
  intros HA Hm. rewrite (mat_tabulate A HA).
  apply is_matrix_inv in HA as (Hn & _ & Hn_max & Hm_max).
  rewrite Matrix_transpose_tabulate by assumption.
  unfold mat, transpose_rows. by rewrite numbers_tabulate.
Qed.

Lemma transpose_rows_is_matrix A :
  is_matrix A = true -> 0 < ncols A -> is_matrix (transpose_rows A) = true.
Proof.
  intros HA Hm. apply is_matrix_inv in HA as (Hn & _ & Hn_max & Hm_max).
  by apply is_matrix_tabulate.
Qed.

Lemma transpose_rows_involutive A :
  is_matrix A = true -> 0 < ncols A ->
  transpose_rows (transpose_rows A) = A.
Proof.
  intros HA Hm. rewrite (rows_tabulate A HA) at 2.
  apply is_matrix_inv in HA as (Hn & _).
  unfold transpose_rows at 1.
  assert (Hlen : length (transpose_rows A) = ncols A)
    by apply tabulate_length.
  assert (Hcols : ncols (transpose_rows A) = length A)
    by (by apply ncols_tabulate).
  rewrite Hlen, Hcols. apply tabulate_ext. intros i j Hi Hj.
  unfold transpose_rows. by rewrite entry_tabulate.
Qed.

(** ** [setMultiple] and [identity] *)

Lemma Matrix_checkBounds_in_bounds this i j :
  Matrix.checkBounds this i j
  = if in_bounds (Matrix._matrix this) i j then Ok tt
    else Throw IndexOutOfBounds.
Proof.
  destruct this as [rows]. unfold Matrix.checkBounds, in_bounds, Matrix.n,
    Matrix.m. cbn [Matrix._matrix].
  destruct rows as [|row0 rest].
  - unfold Array_length. cbn [length]. zcases; reflexivity.
  - generalize (Array_length (row0 :: rest)) (Array_length row0).
    intros rows cols. zcases; reflexivity.
Qed.

Lemma in_bounds_tabulate r c (g : nat -> nat -> option value) i j :
  i < r -> j < c -> in_bounds (tabulate r c g) (Z.of_nat i) (Z.of_nat j) = true.
Proof.
  intros Hi Hj. unfold in_bounds.
  destruct (tabulate_head r c g) as [rest Heq]; [lia|].
  rewrite Heq. rewrite <- Heq at 1. unfold Array_length.
  rewrite tabulate_length, length_fmap, length_seq. zcases; reflexivity.
Qed.

(** The checks of [setMultiple] assign nothing; they pass when every pair
    is in bounds and throw [IndexOutOfBounds] otherwise. *)
Lemma each_check_run (indices : list (Z * Z)) (i0 : Z) (f : Matrix.frame) :
  Matrix.each
    (fun '(i, j) (_ : Z) (f : Matrix.frame) =>
       (f, Matrix.checkBounds (Matrix.Build (Matrix.this_matrix f)) i j))
    i0 (Some <$> indices) f
  = (f, if forallb (fun '(i, j) => in_bounds (Matrix.this_matrix f) i j)
                   indices
        then Ok tt else Throw IndexOutOfBounds).
Proof.
  revert i0. induction indices as [|[i j] indices IH]; intros i0.
  - reflexivity.
  - cbn [fmap list_fmap Matrix.each forallb]. unfold Matrix.then_.
    rewrite Matrix_checkBounds_in_bounds. cbn [Matrix._matrix].
    destruct (in_bounds (Matrix.this_matrix f) i j); cbn [andb].
    + apply IH.
    + reflexivity.
Qed.

Lemma setMultiple_check_run indices f :
  Matrix.setMultiple_check indices f
  = (f, if forallb (fun '(i, j) => in_bounds (Matrix.this_matrix f) i j)
                   indices
        then Ok tt else Throw IndexOutOfBounds).
Proof. apply each_check_run. Qed.

(** An invariant of a [forEach] statement over an array without holes. *)
Lemma each_inv {A S} (P : nat -> S -> Prop) (h : nat -> A)
    (body : A -> Z -> Matrix.stmt S unit) (c k : nat) (s : S) :
  P k s ->
  (forall j s, k <= j < k + c -> P j s ->
     exists s', body (h j) (Z.of_nat j) s = (s', Ok tt)
                /\ P (Datatypes.S j) s') ->
  exists s',
    Matrix.each body (Z.of_nat k) ((fun j => Some (h j)) <$> seq k c) s
    = (s', Ok tt)
    /\ P (k + c) s'.
Proof.
  revert k s. induction c as [|c IH]; intros k s HP Hstep.
  - exists s. split; [reflexivity|]. by rewrite Nat.add_0_r.
  - destruct (Hstep k s) as (s1 & Hf & HP1); [lia | assumption |].
    destruct (IH (Datatypes.S k) s1) as (s2 & Hrun & HP2); [assumption | |].
    { intros j s' Hj. apply Hstep. lia. }
    exists s2. split.
    + cbn [seq fmap list_fmap Matrix.each]. unfold Matrix.then_.
      rewrite Hf.
      replace (Z.of_nat k + 1)%Z with (Z.of_nat (Datatypes.S k)) by lia.
      exact Hrun.
    + by replace (k + Datatypes.S c) with (Datatypes.S k + c) by lia.
Qed.

Lemma replicate_seq {X} (x : X) (c k : nat) :
  replicate c x = (fun _ => x) <$> seq k c.
Proof.
  revert k. induction c as [|c IH]; intros k; simpl;
    [reflexivity | by rewrite <- IH].
Qed.

(** [new Array(...row)] copies a row of numbers that has not exactly one
    element. *)
Lemma Array_of_spread_numbers xs :
  length xs <> 1 -> Array_of (spread (numbers xs)) = Ok (numbers xs).
Proof.
  intros Hlen.
  assert (Hspread : spread (numbers xs) = Num <$> xs).
  { unfold spread, numbers. rewrite <- list_fmap_compose.
    by apply list_fmap_ext. }
  assert (Hnum : numbers xs = Some <$> (Num <$> xs)).
  { unfold numbers. rewrite <- list_fmap_compose. by apply list_fmap_ext. }
  rewrite Hspread, Hnum.
  destruct xs as [|x [|y xs]]; [reflexivity | done | reflexivity].
Qed.

Lemma mapM_from_lookup {A B} (f : A -> Z -> result B) (h : A -> B) l i :
  (forall k a, l !! k = Some a -> f a (i + Z.of_nat k)%Z = Ok (h a)) ->
  mapM_from f i l = Ok (h <$> l).
Proof.
  revert i. induction l as [|a l IH]; intros i Hf; [reflexivity|].
  cbn [mapM_from fmap list_fmap].
  assert (H0 : f a i = Ok (h a)).
  { rewrite <- (Hf 0 a) by reflexivity. f_equal. simpl. lia. }
  rewrite H0. cbn [bind]. rewrite IH; [reflexivity|].
  intros k a' Hk. rewrite <- (Hf (Datatypes.S k) a' Hk). f_equal. lia.
Qed.

Lemma Matrix_to2dArray_numbers A :
  (forall i row, A !! i = Some row -> length row <> 1) ->
  Matrix.to2dArray (mat A) = Ok (numbers <$> A).
Proof.
  intros Hrows. unfold Matrix.to2dArray, mapM, mat. cbn [Matrix._matrix].
  rewrite (mapM_from_lookup _ id).
  - by rewrite list_fmap_id.
  - intros k row Hk. apply list_lookup_fmap_Some in Hk as (xs & -> & Hxs).
    apply Array_of_spread_numbers. eauto.
Qed.

(** The diagonal of ones set on the zero matrix, as [identity] does it, for
    a dimension other than 1. *)
Lemma setMultiple_diagonal (n : nat) :
  0 < n -> n <> 1 -> (Z.of_nat n <= MAX_LENGTH)%Z ->
  Matrix.setMultiple
    (Matrix.Build (tabulate n n (cells (fun _ _ => 0%Z))))
    (replicate n (Some (Num 1)))
    ((fun k => (Z.of_nat k, Z.of_nat k)) <$> seq 0 n)
  = Ok (mat (identity_rows n)).
Proof.
  intros Hn Hn1 Hmax.
  set (rows0 := tabulate n n (cells (fun _ _ => 0%Z))).
  set (indices := (fun k => (Z.of_nat k, Z.of_nat k)) <$> seq 0 n).
  assert (Hall : forallb (fun '(i, j) => in_bounds rows0 i j) indices = true).
  { apply forallb_forall. intros [i j] Hin.
    apply list_elem_of_In, list_elem_of_fmap in Hin as (k & Heq & Hk).
    injection Heq as -> ->. apply elem_of_seq in Hk.
    apply in_bounds_tabulate; lia. }
  assert (Hcopy : Matrix.to2dArray (Matrix.Build rows0) = Ok rows0).
  { unfold rows0. rewrite <- numbers_tabulate.
    apply (Matrix_to2dArray_numbers (tabulate n n (fun _ _ => 0%Z))).
    intros i row Hrow. apply lookup_lt_Some in Hrow as Hi.
    rewrite tabulate_length in Hi.
    rewrite (tabulate_lookup _ _ _ _ Hi) in Hrow. injection Hrow as <-.
    by rewrite length_fmap, length_seq. }
  unfold Matrix.setMultiple, Matrix.setMultiple_body, Matrix.then_.
  rewrite setMultiple_check_run. cbn [Matrix.this_matrix Matrix._matrix].
  rewrite Hall. unfold Matrix.setMultiple_copy.
  cbn [Matrix.this_matrix]. rewrite Hcopy.
  unfold Matrix.setMultiple_apply. rewrite (replicate_seq _ n 0).
  destruct (each_inv
    (fun k f =>
       f = Matrix.Frame rows0
             (Some (tabulate n n
                      (cells (fun x y => if decide (x = y /\ x < k)
                                         then 1%Z else 0%Z)))))
    (fun _ => Num 1)
    (fun value index f =>
       match indices !! Z.to_nat index, Matrix.arr f with
       | Some (i, j), Some a =>
           match set2 a i j value with
           | Ok a' => (Matrix.Frame (Matrix.this_matrix f) (Some a'), Ok tt)
           | Throw e => (f, Throw e)
           end
       | _, _ => (f, Throw TypeError)
       end)
    n 0 (Matrix.Frame rows0 (Some rows0)))
    as (f' & Hrun & ->).
  - do 2 f_equal. apply tabulate_ext. intros x y _ _. unfold cells.
    destruct (decide (x = y /\ x < 0)); [lia | reflexivity].
  - intros k f Hk ->. rewrite Nat2Z.id. unfold indices.
    rewrite list_lookup_fmap, lookup_seq_lt by lia.
    cbn [fmap option_fmap option_map Matrix.arr Matrix.this_matrix Nat.add].
    rewrite set2_tabulate by (assumption || lia).
    eexists. split; [reflexivity|]. do 2 f_equal.
    apply tabulate_ext. intros x y _ _. unfold upd, cells.
    destruct (decide (x = k /\ y = k)) as [[-> ->]|Hne].
    + destruct (decide (k = k /\ k < Datatypes.S k)); [reflexivity | lia].
    + destruct (decide (x = y /\ x < k)),
        (decide (x = y /\ x < Datatypes.S k)); try reflexivity; lia.
  - change (Z.of_nat 0) with 0%Z in Hrun. cbv beta in Hrun. rewrite Hrun.
    unfold Matrix.setMultiple_return. cbn [Matrix.arr snd].
    rewrite Matrix_constructor_tabulate by assumption.
    unfold mat, identity_rows. rewrite numbers_tabulate. do 2 f_equal.
    apply tabulate_ext. intros x y Hx _. unfold cells.
    destruct (decide (x = y /\ x < 0 + n)), (decide (x = y));
      try reflexivity; lia.
Qed.

Lemma Matrix_identity_rows (n : nat) :
  0 < n -> (Z.of_nat n <= MAX_LENGTH)%Z ->
  Matrix.identity (Z.of_nat n) = Ok (mat (identity_rows n)).
Proof.
  intros Hn Hmax. destruct (decide (n = 1)) as [->|Hn1]; [reflexivity|].
  unfold Matrix.identity.
  rewrite (Matrix_constructor_fill n n 0 (Some 0%Z) None)
    by (assumption || reflexivity).
  cbn [bind]. rewrite Array_new_valid by assumption. cbn [bind].
  rewrite !Array_fill_replicate.
  unfold mapM. rewrite (mapM_from_Ok _ (fun _ i => (i, i))) by reflexivity.
  cbn [bind].
  rewrite (imap_seq_0 _ (fun k => ((0 + Z.of_nat k)%Z, (0 + Z.of_nat k)%Z))).
  rewrite length_replicate.
  by apply setMultiple_diagonal.
Qed.

(** Multiplying by the identity: the sum of a row against a column of the
    identity picks one entry. *)
Lemma identity_column_sum A i j (K k : nat) (s : Z) :
  j < K -> k <= K ->
  foldl (fun acc k' =>
           (acc + entry A i k' * entry (identity_rows K) k' j)%Z)
        s (seq 0 k)
  = if decide (j < k) then (s + entry A i j)%Z else s.
Proof.
  intros Hj. induction k as [|k IH]; intros Hk.
  - reflexivity.
  - rewrite seq_S, foldl_app, IH by lia. cbn [foldl]. simpl.
    unfold identity_rows. rewrite entry_tabulate by lia.
    destruct (decide (k = j)) as [->|Hne].
    + destruct (decide (j < j)), (decide (j < Datatypes.S j)); lia.
    + destruct (decide (j < k)), (decide (j < Datatypes.S k)); lia.
Qed.

Lemma product_rows_identity A :
  is_matrix A = true -> 0 < ncols A ->
  product_rows A (identity_rows (ncols A)) = A.
Proof.
  intros HA Hm. rewrite (rows_tabulate A HA) at 3.
  unfold product_rows. unfold identity_rows at 1.
  rewrite ncols_tabulate by assumption.
  apply tabulate_ext. intros i j Hi Hj. unfold product_cell.
  rewrite identity_column_sum by lia.
  destruct (decide (j < ncols A)); lia.
Qed.

(** ** Observing matrices of numbers *)

Lemma Matrix_n_mat A : Matrix.n (mat A) = Z.of_nat (length A).
Proof. unfold Matrix.n, Array_length, mat. simpl. by rewrite length_fmap. Qed.

Lemma Matrix_m_mat A :
  0 < length A -> Matrix.m (mat A) = Ok (Z.of_nat (ncols A)).
Proof.
  destruct A as [|row0 A]; simpl; [lia|]. intros _.
  unfold Matrix.m, Array_length. simpl. by rewrite numbers_length.
Qed.

Lemma mat_of_tabulate r c (g : nat -> nat -> Z) :
  mat (tabulate r c g) = Matrix.Build (tabulate r c (cells g)).
Proof. unfold mat. by rewrite numbers_tabulate. Qed.

Lemma Matrix_getAt_mat A i j :
  is_matrix A = true -> i < length A -> j < ncols A ->
  Matrix.getAt (mat A) (Z.of_nat i) (Z.of_nat j) = Ok (Num (entry A i j)).
Proof.
  intros HA Hi Hj. rewrite (mat_tabulate A HA).
  by rewrite Matrix_getAt_tabulate.
Qed.

Lemma Matrix_getAt_mat_tabulate r c (g : nat -> nat -> Z) i j :
  i < r -> j < c ->
  Matrix.getAt (mat (tabulate r c g)) (Z.of_nat i) (Z.of_nat j)
  = Ok (Num (g i j)).
Proof.
  intros Hi Hj. rewrite mat_of_tabulate. by rewrite Matrix_getAt_tabulate.
Qed.

(** Numeric rows that make a matrix are accepted by the constructor. *)
Lemma Matrix_constructor_rows A :
  is_matrix A = true ->
  Matrix.constructor (Matrix.OfArray (numbers <$> A)) None None = Ok (mat A).
Proof.
  intros HA. change (Matrix.Build (numbers <$> A)) with (mat A).
  pose proof (mat_tabulate A HA) as Heq. unfold mat in Heq.
  injection Heq as Heq. apply is_matrix_inv in HA as (Hn & _).
  unfold mat. rewrite Heq. by apply Matrix_constructor_tabulate.
Qed.

(** ** The receiver of [setMultiple] *)

(** A property of the variables kept by every round of a [forEach]
    statement is kept by the statement. *)
Lemma each_keeps {A S} (Q : S -> Prop) (body : A -> Z -> Matrix.stmt S unit)
    (l : list (option A)) (i : Z) (s : S) :
  (forall a k s, Q s -> Q (fst (body a k s))) ->
  Q s -> Q (fst (Matrix.each body i l s)).
Proof.
  intros Hbody. revert i s. induction l as [|[a|] l IH]; intros i s HQ.
  - assumption.
  - cbn [Matrix.each]. unfold Matrix.then_.
    specialize (Hbody a i s HQ). destruct (body a i s) as [s1 [[]|e]].
    + by apply IH.
    + assumption.
  - cbn [Matrix.each]. by apply IH.
Qed.

Lemma setMultiple_body_receiver values indices f :
  Matrix.this_matrix (fst (Matrix.setMultiple_body values indices f))
  = Matrix.this_matrix f.
Proof.
  unfold Matrix.setMultiple_body, Matrix.then_.
  rewrite setMultiple_check_run.
  destruct (forallb _ indices); [|reflexivity].
  unfold Matrix.setMultiple_copy.
  destruct (Matrix.to2dArray _) as [copy|e]; [|reflexivity].
  pose proof (each_keeps
    (fun f' => Matrix.this_matrix f' = Matrix.this_matrix f)
    (fun value index f =>
       match indices !! Z.to_nat index, Matrix.arr f with
       | Some (i, j), Some a =>
           match set2 a i j value with
           | Ok a' => (Matrix.Frame (Matrix.this_matrix f) (Some a'), Ok tt)
           | Throw e => (f, Throw e)
           end
       | _, _ => (f, Throw TypeError)
       end)
    values 0 (Matrix.Frame (Matrix.this_matrix f) (Some copy))) as Hkeep.
  unfold Matrix.setMultiple_apply.
  destruct (Matrix.each _ 0 values _) as [f1 [[]|e]].
  - unfold Matrix.setMultiple_return.
    destruct (Matrix.arr f1); cbn [fst]; apply Hkeep; try reflexivity;
      intros a k s Hs;
      destruct (indices !! Z.to_nat k) as [[i j]|], (Matrix.arr s) as [a0|];
      try destruct (set2 a0 i j a); assumption.
  - cbn [fst]. apply Hkeep; try reflexivity.
    intros a k s Hs.
    destruct (indices !! Z.to_nat k) as [[i j]|], (Matrix.arr s) as [a0|];
      try destruct (set2 a0 i j a); assumption.
Qed.

(** * The properties of the specification *)

(** C1.  The claim: for every [n >= 1] and every value [v], the
    two-argument constructor [Matrix(n, v)] returns the [n]-by-[n] matrix
    whose elements all equal [v] (so does the constructor's own
    documentation).  The code: with two arguments [arg2] is [undefined], so
    the fill value [arg2 ?? 0] is 0 and [v] is dropped; the result is the
    [n]-by-[n] matrix of zeros, whatever [v] is. *)
Theorem C1_two_argument_constructor_fills_with_zero (n v : Z) :
  (1 <= n <= MAX_LENGTH)%Z ->
  Matrix.constructor (Matrix.OfNumber n) (Some v) None
  = Ok (mat (tabulate (Z.to_nat n) (Z.to_nat n) (fun _ _ => 0%Z))).
Proof.
  intros Hn. rewrite <- (Z2Nat.id n) at 1 by lia.
  rewrite (Matrix_constructor_fill (Z.to_nat n) (Z.to_nat n) 0 (Some v) None);
    try reflexivity; try lia.
  by rewrite mat_of_tabulate.
Qed.

Lemma C1_witness :
  (1 <= 2 <= MAX_LENGTH)%Z
  /\ Matrix.constructor (Matrix.OfNumber 2) (Some 5%Z) None
     = Ok (mat [[0; 0]; [0; 0]]%Z).
Proof.
  split.
  - unfold MAX_LENGTH. lia.
  - apply (C1_two_argument_constructor_fills_with_zero 2 5).
    unfold MAX_LENGTH. lia.
Defined.

(** C2.  The claim: [v.add(w)] fails with [DimensionMismatch] whenever the
    dimensions differ, for example for dimensions 2 and 3.  The code: [add]
    never compares dimensions (its sibling [scalarProduct] does); with the
    longer operand as argument it returns a vector, with the shorter one it
    fails in [getAt] with [IndexOutOfBounds]. *)
Theorem C2_add_does_not_check_dimensions :
  Vector.add (vec [1; 2]%Z) (vec [10; 20; 30]%Z) = Ok (vec [11; 22]%Z)
  /\ Vector.add (vec [10; 20; 30]%Z) (vec [1; 2]%Z) = Throw IndexOutOfBounds
  /\ IndexOutOfBounds <> DimensionMismatch
  /\ Vector.scalarProduct (vec [1; 2]%Z) (vec [10; 20; 30]%Z)
     = Throw DimensionMismatch.
Proof. repeat split; try reflexivity. discriminate. Qed.

(** C3.  For numeric matrices [A] and [B] with [A.m = B.n],
    [A.matrixMultiplication(B)] returns the [A.n]-by-[B.m] matrix whose
    cell [(i, j)] is the sum of [A[i][k] * B[k][j]] over [k] from 0 to
    [A.m - 1], accumulated from 0 in increasing [k]; and
    [[1,2],[3,4]] times [[5,6],[7,8]] is [[19,22],[43,50]]. *)
Theorem C3_matrixMultiplication :
  (forall A B : list (list Z),
     is_matrix A = true -> is_matrix B = true ->
     Matrix.m (mat A) = Ok (Matrix.n (mat B)) ->
     exists R,
       Matrix.matrixMultiplication (mat A) (mat B) = Ok R
       /\ Matrix.n R = Matrix.n (mat A)
       /\ Matrix.m R = Matrix.m (mat B)
       /\ forall i j, i < length A -> j < ncols B ->
            Matrix.getAt R (Z.of_nat i) (Z.of_nat j)
            = Ok (Num (foldl (fun acc k =>
                                (acc + entry A i k * entry B k j)%Z)
                             0%Z (seq 0 (ncols A)))))
  /\ Matrix.matrixMultiplication (mat [[1; 2]; [3; 4]]%Z)
                                 (mat [[5; 6]; [7; 8]]%Z)
     = Ok (mat [[19; 22]; [43; 50]]%Z).
Proof.
  split; [|reflexivity].
  intros A B HA HB Hdim.
  pose proof (is_matrix_inv A HA) as (HnA & _).
  pose proof (is_matrix_inv B HB) as (HnB & _).
  rewrite Matrix_m_mat, Matrix_n_mat in Hdim by assumption.
  injection Hdim as Hdim. apply Nat2Z.inj in Hdim.
  exists (mat (product_rows A B)). split; [|split; [|split]].
  - apply Matrix_product_rows; try assumption. lia.
  - rewrite !Matrix_n_mat. unfold product_rows. by rewrite tabulate_length.
  - rewrite (Matrix_m_mat B) by assumption. unfold product_rows.
    rewrite mat_of_tabulate. by apply Matrix_m_tabulate.
  - intros i j Hi Hj. unfold product_rows.
    by rewrite Matrix_getAt_mat_tabulate.
Qed.

Lemma C3_witness :
  exists R,
    Matrix.matrixMultiplication (mat [[1; 2; 3]]%Z) (mat [[4]; [5]; [6]]%Z)
    = Ok R
    /\ Matrix.getAt R 0 0 = Ok (Num 32).
Proof.
  destruct (proj1 C3_matrixMultiplication [[1; 2; 3]]%Z [[4]; [5]; [6]]%Z
              eq_refl eq_refl eq_refl) as (R & Hrun & _ & _ & Hcell).
  exists R. split; [exact Hrun|].
  apply (Hcell 0 0); simpl; lia.
Defined.

(** C4.  [a.vectorProduct(b)] fails unless both operands have dimension 3;
    for numeric operands of dimension 3 it returns
    [a1*b2 - a2*b1, a0*b2 - a2*b0, a0*b1 - a1*b0], the middle component not
    negated; for [1,0,0] and [0,1,0] that is [0,0,1]. *)
Theorem C4_vectorProduct :
  (forall a b : Vector.t,
     Vector.dimension a <> 3%Z \/ Vector.dimension b <> 3%Z ->
     Vector.vectorProduct a b = Throw NotThreeDimensional)
  /\ (forall a0 a1 a2 b0 b1 b2 : Z,
        Vector.vectorProduct (vec [a0; a1; a2]) (vec [b0; b1; b2])
        = Ok (vec [a1 * b2 - a2 * b1; a0 * b2 - a2 * b0;
                   a0 * b1 - a1 * b0]%Z))
  /\ Vector.vectorProduct (vec [1; 0; 0]%Z) (vec [0; 1; 0]%Z)
     = Ok (vec [0; 0; 1]%Z).
Proof.
  split; [|split].
  - intros a b Hdim. unfold Vector.vectorProduct,
      Vector.assertVectorProductDefined.
    destruct (Z.eqb_spec (Vector.dimension b) 3),
      (Z.eqb_spec (Vector.dimension a) 3); cbn [negb orb bind];
      try reflexivity.
    tauto.
  - intros. reflexivity.
  - reflexivity.
Qed.

Lemma C4_witness :
  Vector.vectorProduct (vec [1; 2]%Z) (vec [3; 4; 5]%Z)
  = Throw NotThreeDimensional.
Proof.
  apply (proj1 C4_vectorProduct). left. discriminate.
Defined.

(** C5, as stated, fails on a matrix without columns: [[[]]] is accepted by
    the constructor, its [m] is 0, and [identity(0)] throws (the
    constructor of the result reads the length of a first row that is not
    there), so there is no identity to multiply by. *)
Lemma C5_counterexample :
  Matrix.constructor (Matrix.OfArray [[]]) None None = Ok (mat [[]])
  /\ Matrix.m (mat [[]]) = Ok 0%Z
  /\ Matrix.identity 0 = Throw TypeError
  /\ (I <-- (cols <-- Matrix.m (mat [[]]);; Matrix.identity cols);;
      Matrix.matrixMultiplication (mat [[]]) I)
     <> Ok (mat [[]]).
Proof. repeat split; try reflexivity. discriminate. Qed.

(** C5, amended.  For every numeric matrix [M] with at least one column,
    [identity(M.m)] is the [M.m]-by-[M.m] matrix with 1 on the diagonal and
    0 elsewhere, and [M.matrixMultiplication(identity(M.m))] equals [M]. *)
Theorem C5_identity_is_right_neutral (A : list (list Z)) :
  is_matrix A = true ->
  0 < ncols A ->
  exists cols I,
    Matrix.m (mat A) = Ok cols
    /\ Matrix.identity cols = Ok I
    /\ Matrix.n I = cols
    /\ Matrix.m I = Ok cols
    /\ (forall i j, i < ncols A -> j < ncols A ->
          Matrix.getAt I (Z.of_nat i) (Z.of_nat j)
          = Ok (Num (if decide (i = j) then 1 else 0)))
    /\ Matrix.matrixMultiplication (mat A) I = Ok (mat A).
Proof.
  intros HA Hm.
  pose proof (is_matrix_inv A HA) as (Hn & _ & Hn_max & Hm_max).
  exists (Z.of_nat (ncols A)), (mat (identity_rows (ncols A))).
  split; [by apply Matrix_m_mat|]. split; [by apply Matrix_identity_rows|].
  unfold identity_rows at 1 2 3.
  split; [by rewrite Matrix_n_mat, tabulate_length|].
  split; [rewrite mat_of_tabulate; by apply Matrix_m_tabulate|].
  split; [intros i j Hi Hj; by apply Matrix_getAt_mat_tabulate|].
  rewrite Matrix_product_rows; try assumption.
  - by rewrite product_rows_identity.
  - by apply is_matrix_tabulate.
  - unfold identity_rows. by rewrite tabulate_length.
Qed.

Lemma C5_witness :
  exists cols I,
    Matrix.m (mat [[1; 2]; [3; 4]; [5; 6]]%Z) = Ok cols
    /\ Matrix.identity cols = Ok I
    /\ Matrix.matrixMultiplication (mat [[1; 2]; [3; 4]; [5; 6]]%Z) I
       = Ok (mat [[1; 2]; [3; 4]; [5; 6]]%Z).
Proof.
  destruct (C5_identity_is_right_neutral [[1; 2]; [3; 4]; [5; 6]]%Z eq_refl)
    as (cols & I & Hm & HI & _ & _ & _ & Hmul).
  - simpl. lia.
  - exists cols, I. auto.
Defined.

(** C6, as stated, fails on a matrix without columns: the transpose of
    [[[]]] would have no rows, and the constructor of the result throws on
    reading the length of its first row. *)
Lemma C6_counterexample :
  Matrix.constructor (Matrix.OfArray [[]]) None None = Ok (mat [[]])
  /\ Matrix.n (mat [[]]) = 1%Z
  /\ Matrix.m (mat [[]]) = Ok 0%Z
  /\ Matrix.transpose (mat [[]]) = Throw TypeError.
Proof. repeat split; reflexivity. Qed.

(** C6, amended.  For every numeric matrix [M] of shape [n]-by-[m] with at
    least one column, [M.transpose()] returns, without failing, a matrix of
    shape [m]-by-[n] with [result[j][i] = M[i][j]] for all valid [i], [j],
    and [M.transpose().transpose()] equals [M]. *)
Theorem C6_transpose (A : list (list Z)) :
  is_matrix A = true ->
  0 < ncols A ->
  exists T,
    Matrix.transpose (mat A) = Ok T
    /\ Ok (Matrix.n T) = Matrix.m (mat A)
    /\ Matrix.m T = Ok (Matrix.n (mat A))
    /\ (forall i j, i < length A -> j < ncols A ->
          Matrix.getAt T (Z.of_nat j) (Z.of_nat i)
          = Matrix.getAt (mat A) (Z.of_nat i) (Z.of_nat j))
    /\ Matrix.transpose T = Ok (mat A).
Proof.
  intros HA Hm.
  pose proof (is_matrix_inv A HA) as (Hn & _ & Hn_max & Hm_max).
  exists (mat (transpose_rows A)).
  split; [by apply Matrix_transpose_rows|].
  split; [|split; [|split]].
  - rewrite Matrix_m_mat, Matrix_n_mat by assumption.
    unfold transpose_rows. by rewrite tabulate_length.
  - rewrite Matrix_n_mat. unfold transpose_rows.
    rewrite mat_of_tabulate. by apply Matrix_m_tabulate.
  - intros i j Hi Hj. rewrite (Matrix_getAt_mat A) by assumption.
    unfold transpose_rows. by rewrite Matrix_getAt_mat_tabulate.
  - rewrite Matrix_transpose_rows.
    + by rewrite transpose_rows_involutive.
    + by apply transpose_rows_is_matrix.
    + unfold transpose_rows. by rewrite ncols_tabulate.
Qed.

Lemma C6_witness :
  exists T,
    Matrix.transpose (mat [[1; 2; 3]; [4; 5; 6]]%Z) = Ok T
    /\ Matrix.getAt T 2 1 = Ok (Num 6)
    /\ Matrix.transpose T = Ok (mat [[1; 2; 3]; [4; 5; 6]]%Z).
Proof.
  destruct (C6_transpose [[1; 2; 3]; [4; 5; 6]]%Z eq_refl)
    as (T & Hrun & _ & _ & Hcell & Hback).
  - simpl. lia.
  - exists T. split; [exact Hrun|]. split; [|exact Hback].
    apply (Hcell 1 2); simpl; lia.
Defined.

(** C7.  If some pair of [indices] is out of bounds for [M], then
    [M.setMultiple(values, indices)] throws [IndexOutOfBounds] in its
    checks: the throw leaves the variables of the call as they were at its
    start, the local copy [arr] not yet made and no value applied.  No
    call, failing or not, assigns the rows of the receiver, and a failing
    call returns no matrix at all. *)
Theorem C7_setMultiple_all_or_nothing
    (M : Matrix.t) (values : array) (indices : list (Z * Z)) :
  let start := Matrix.Frame (Matrix._matrix M) None in
  Matrix.this_matrix (fst (Matrix.setMultiple_body values indices start))
  = Matrix._matrix M
  /\ ((exists i j, In (i, j) indices
                   /\ in_bounds (Matrix._matrix M) i j = false) ->
      Matrix.setMultiple_body values indices start
      = (start, Throw IndexOutOfBounds)
      /\ Matrix.setMultiple M values indices = Throw IndexOutOfBounds).
Proof.
  intros start. split; [apply setMultiple_body_receiver|].
  intros (i & j & Hin & Hout).
  assert (Hcheck : forallb
            (fun '(i, j) => in_bounds (Matrix.this_matrix start) i j)
            indices = false).
  { destruct (forallb _ indices) eqn:Hall; [|reflexivity].
    rewrite forallb_forall in Hall. specialize (Hall _ Hin).
    cbn [start Matrix.this_matrix] in Hall. congruence. }
  assert (Hrun : Matrix.setMultiple_body values indices start
                 = (start, Throw IndexOutOfBounds)).
  { unfold Matrix.setMultiple_body, Matrix.then_.
    by rewrite setMultiple_check_run, Hcheck. }
  split; [exact Hrun|].
  unfold Matrix.setMultiple. fold start. by rewrite Hrun.
Qed.

Lemma C7_witness :
  Matrix.setMultiple (mat [[1; 2]; [3; 4]]%Z) (numbers [7; 8]%Z)
                     [(0, 0); (2, 0)]%Z
  = Throw IndexOutOfBounds.
Proof.
  apply (C7_setMultiple_all_or_nothing
           (mat [[1; 2]; [3; 4]]%Z) (numbers [7; 8]%Z) [(0, 0); (2, 0)]%Z).
  exists 2%Z, 0%Z. split; [right; left; reflexivity | reflexivity].
Defined.

(** C8.  For numeric vectors [v] and [w]: when [w] is longer than [v],
    [v.add(w)] returns a vector of the dimension of [v] whose [i]-th
    element is [v[i] + w[i]], the rest of [w] being ignored; when [w] is
    shorter, it fails with [IndexOutOfBounds], which is not
    [DimensionMismatch]. *)
Theorem C8_add_of_unequal_dimensions (xs ws : list Z) :
  ((Vector.dimension (vec xs) < Vector.dimension (vec ws))%Z ->
   exists r,
     Vector.add (vec xs) (vec ws) = Ok r
     /\ Vector.dimension r = Vector.dimension (vec xs)
     /\ forall i x w, xs !! i = Some x -> ws !! i = Some w ->
          Vector.getAt r (Z.of_nat i) = Ok (Num (x + w)))
  /\ ((Vector.dimension (vec ws) < Vector.dimension (vec xs))%Z ->
      Vector.add (vec xs) (vec ws) = Throw IndexOutOfBounds
      /\ IndexOutOfBounds <> DimensionMismatch).
Proof.
  rewrite !Vector_dimension_vec. split.
  - intros Hlen. exists (vec (zip_with Z.add xs ws)).
    split; [apply Vector_add_fits; lia|]. split.
    + rewrite !Vector_dimension_vec, length_zip_with. lia.
    + intros i x w Hx Hw. apply Vector_getAt_vec.
      rewrite lookup_zip_with, Hx, Hw. reflexivity.
  - intros Hlen. split; [apply Vector_add_short; lia | discriminate].
Qed.

Lemma C8_witness :
  (exists r,
     Vector.add (vec [1; 2]%Z) (vec [10; 20; 30]%Z) = Ok r
     /\ Vector.getAt r 1 = Ok (Num 22))
  /\ Vector.add (vec [10; 20; 30]%Z) (vec [1; 2]%Z) = Throw IndexOutOfBounds.
Proof.
  split.
  - destruct (proj1 (C8_add_of_unequal_dimensions [1; 2]%Z [10; 20; 30]%Z))
      as (r & Hrun & _ & Hcell); [reflexivity|].
    exists r. split; [exact Hrun|]. by apply (Hcell 1 2%Z 20%Z).
  - apply (proj2 (C8_add_of_unequal_dimensions [10; 20; 30]%Z [1; 2]%Z)).
    reflexivity.
Defined.

(** C9, as stated, fails when the operand has no columns: the loop over its
    columns has no round, nothing is read, and the product of the 1-by-2
    [[[1,2]]] with the 1-by-0 [[[]]] is the 1-by-0 matrix, although the
    receiver has 2 columns and the operand 1 row. *)
Lemma C9_counterexample :
  Matrix.constructor (Matrix.OfArray (numbers <$> [[1; 2]]%Z)) None None
  = Ok (mat [[1; 2]]%Z)
  /\ Matrix.constructor (Matrix.OfNumber 1) (Some 0%Z) (Some 0%Z)
     = Ok (mat [[]])
  /\ Matrix.m (mat [[1; 2]]%Z) = Ok 2%Z
  /\ Matrix.n (mat [[]]) = 1%Z
  /\ Matrix.matrixMultiplication (mat [[1; 2]]%Z) (mat [[]]) = Ok (mat [[]])
  /\ Matrix.matrixMultiplication (mat [[1; 2]]%Z) (mat [[]])
     <> Throw IndexOutOfBounds.
Proof. repeat split; try reflexivity. discriminate. Qed.

(** C9, amended.  For numeric matrices [A] and [B]: when [A.m > B.n] and
    [B] has at least one column, [A.matrixMultiplication(B)] fails with
    [IndexOutOfBounds]; when [A.m < B.n] it succeeds and returns the
    [A.n]-by-[B.m] matrix whose cells are the sums over [k] below [A.m]
    only. *)
Theorem C9_matrixMultiplication_of_unequal_inner_dimensions
    (A B : list (list Z)) (colsA colsB : Z) :
  is_matrix A = true -> is_matrix B = true ->
  Matrix.m (mat A) = Ok colsA -> Matrix.m (mat B) = Ok colsB ->
  ((Matrix.n (mat B) < colsA)%Z -> (1 <= colsB)%Z ->
   Matrix.matrixMultiplication (mat A) (mat B) = Throw IndexOutOfBounds)
  /\ ((colsA < Matrix.n (mat B))%Z ->
      exists R,
        Matrix.matrixMultiplication (mat A) (mat B) = Ok R
        /\ Matrix.n R = Matrix.n (mat A)
        /\ Matrix.m R = Ok colsB
        /\ forall i j, i < length A -> j < ncols B ->
             Matrix.getAt R (Z.of_nat i) (Z.of_nat j)
             = Ok (Num (foldl (fun acc k =>
                                 (acc + entry A i k * entry B k j)%Z)
                              0%Z (seq 0 (ncols A))))).
Proof.
  intros HA HB HmA HmB.
  pose proof (is_matrix_inv A HA) as (HnA & _).
  pose proof (is_matrix_inv B HB) as (HnB & _).
  rewrite Matrix_m_mat in HmA, HmB by assumption.
  injection HmA as <-. injection HmB as <-.
  rewrite Matrix_n_mat. split.
  - intros Hdim Hcols. apply Matrix_product_beyond; try assumption; lia.
  - intros Hdim. exists (mat (product_rows A B)). split; [|split; [|split]].
    + apply Matrix_product_rows; try assumption. lia.
    + rewrite !Matrix_n_mat. unfold product_rows. by rewrite tabulate_length.
    + unfold product_rows. rewrite mat_of_tabulate.
      by apply Matrix_m_tabulate.
    + intros i j Hi Hj. unfold product_rows.
      by rewrite Matrix_getAt_mat_tabulate.
Qed.

Lemma C9_witness :
  Matrix.matrixMultiplication (mat [[1; 2]]%Z) (mat [[3]]%Z)
  = Throw IndexOutOfBounds
  /\ exists R,
       Matrix.matrixMultiplication (mat [[1]]%Z) (mat [[3; 4]; [5; 6]]%Z)
       = Ok R
       /\ Matrix.getAt R 0 1 = Ok (Num 4).
Proof.
  split.
  - apply (proj1 (C9_matrixMultiplication_of_unequal_inner_dimensions
                    [[1; 2]]%Z [[3]]%Z 2 1 eq_refl eq_refl eq_refl eq_refl));
      vm_compute; congruence.
  - destruct (proj2 (C9_matrixMultiplication_of_unequal_inner_dimensions
                       [[1]]%Z [[3; 4]; [5; 6]]%Z 1 2
                       eq_refl eq_refl eq_refl eq_refl))
      as (R & Hrun & _ & _ & Hcell); [reflexivity|].
    exists R. split; [exact Hrun|]. apply (Hcell 0 1); simpl; lia.
Defined.

(** C10.  The filled-by-value constructor with [n = 0] succeeds, with two
    arguments or three, and returns a matrix with zero rows; reading [m]
    of that matrix fails, there being no first row; and [identity(0)]
    fails instead of returning an empty matrix. *)
Theorem C10_zero_rows :
  (forall arg1 arg2 : option Z,
     Matrix.constructor (Matrix.OfNumber 0) arg1 arg2 = Ok (Matrix.Build []))
  /\ Matrix.n (Matrix.Build []) = 0%Z
  /\ Matrix.m (Matrix.Build []) = Throw TypeError
  /\ Matrix.identity 0 = Throw TypeError.
Proof.
  repeat split; try reflexivity.
Qed.

(** * Further properties of [Vector] *)

Lemma Vector_getAt_inside (v : Vector.t) (i : Z) :
  (0 <= i < Vector.dimension v)%Z ->
  Vector.getAt v i = Ok (Array_get (Vector._vector v) i).
Proof. intros H. unfold Vector.getAt, Vector.checkBounds. zcases. reflexivity. Qed.

Lemma Vector_checkBounds_outside (v : Vector.t) (i : Z) :
  (i < 0)%Z \/ (Vector.dimension v <= i)%Z ->
  Vector.checkBounds v i = Throw IndexOutOfBounds.
Proof. intros H. unfold Vector.checkBounds. zcases; reflexivity. Qed.

Lemma Array_new_invalid (len : Z) :
  (len < 0)%Z \/ (MAX_LENGTH < len)%Z -> Array_new len = Throw RangeError.
Proof. intros H. unfold Array_new, valid_length. zcases; reflexivity. Qed.

Lemma Array_new_Z (len : Z) :
  (0 <= len <= MAX_LENGTH)%Z ->
  Array_new len = Ok (replicate (Z.to_nat len) None).
Proof.
  intros H. rewrite <- (Z2Nat.id len) at 1 by lia.
  by rewrite Array_new_valid by lia.
Qed.

Lemma Array_get_replicate (n : nat) (slot : option value) (i : Z) :
  (0 <= i < Z.of_nat n)%Z ->
  Array_get (replicate n slot) i = default Undefined slot.
Proof.
  intros H. unfold Array_get. zcases.
  rewrite lookup_replicate_2 by lia. by destruct slot.
Qed.

(** X1.  [new Vector(size, value)] (value 0 when omitted) is, for a size an
    array can have, the vector of that dimension all of whose elements are
    the value; for any other size it throws a [RangeError]. *)
Theorem X1_Vector_of_size (size : Z) (value : option Z) :
  ((0 <= size <= MAX_LENGTH)%Z ->
   exists v,
     Vector.constructor (Vector.OfNumber size) value = Ok v
     /\ Vector.dimension v = size
     /\ forall i, (0 <= i < size)%Z ->
          Vector.getAt v i = Ok (Num (default 0%Z value)))
  /\ ((size < 0)%Z \/ (MAX_LENGTH < size)%Z ->
      Vector.constructor (Vector.OfNumber size) value = Throw RangeError).
Proof.
  split.
  - intros Hsize. unfold Vector.constructor.
    rewrite Array_new_Z by assumption. cbn [bind].
    rewrite Array_fill_replicate. eexists. split; [reflexivity|].
    assert (Hdim : Vector.dimension
                     (Vector.Build
                        (replicate (Z.to_nat size)
                                   (Some (Num (default 0%Z value))))) = size).
    { unfold Vector.dimension, Array_length. cbn [Vector._vector].
      rewrite length_replicate. lia. }
    split; [exact Hdim|].
    intros i Hi. rewrite Vector_getAt_inside by (rewrite Hdim; lia).
    cbn [Vector._vector]. by rewrite Array_get_replicate by lia.
  - intros Hsize. unfold Vector.constructor.
    by rewrite Array_new_invalid.
Qed.

Lemma X1_witness :
  (exists v,
     Vector.constructor (Vector.OfNumber 3) (Some 7%Z) = Ok v
     /\ Vector.dimension v = 3%Z
     /\ Vector.getAt v 2 = Ok (Num 7))
  /\ Vector.constructor (Vector.OfNumber (-1)) None = Throw RangeError.
Proof.
  split.
  - destruct (proj1 (X1_Vector_of_size 3 (Some 7%Z)))
      as (v & Hv & Hdim & Hget); [unfold MAX_LENGTH; lia|].
    exists v. split; [exact Hv|]. split; [exact Hdim|].
    apply (Hget 2%Z). lia.
  - apply (proj2 (X1_Vector_of_size (-1) None)). left. lia.
Defined.

(** X2.  For every vector, [getAt] and [setAt] throw [IndexOutOfBounds] at
    a negative index and at one not below the dimension; at any other
    index [getAt] returns. *)
Theorem X2_Vector_index_bounds (v : Vector.t) (x i : Z) :
  ((i < 0)%Z \/ (Vector.dimension v <= i)%Z ->
   Vector.getAt v i = Throw IndexOutOfBounds
   /\ Vector.setAt v x i = Throw IndexOutOfBounds)
  /\ ((0 <= i < Vector.dimension v)%Z ->
      exists y, Vector.getAt v i = Ok y).
Proof.
  split.
  - intros H. unfold Vector.getAt, Vector.setAt.
    by rewrite Vector_checkBounds_outside.
  - intros H. rewrite Vector_getAt_inside by assumption. eauto.
Qed.

Lemma X2_witness :
  Vector.getAt (vec [4; 5]%Z) 2 = Throw IndexOutOfBounds
  /\ Vector.setAt (vec [4; 5]%Z) 9 (-1) = Throw IndexOutOfBounds
  /\ exists y, Vector.getAt (vec [4; 5]%Z) 1 = Ok y.
Proof.
  destruct (proj1 (X2_Vector_index_bounds (vec [4; 5]%Z) 0 2)) as [Hget _];
    [right; vm_compute; congruence|].
  destruct (proj1 (X2_Vector_index_bounds (vec [4; 5]%Z) 9 (-1))) as [_ Hset];
    [left; lia|].
  split; [exact Hget|]. split; [exact Hset|].
  apply (proj2 (X2_Vector_index_bounds (vec [4; 5]%Z) 0 1)).
  vm_compute. split; congruence.
Defined.

Lemma numbers_insert xs (i : nat) (x : Z) :
  <[i := Some (Num x)]> (numbers xs) = numbers (<[i := x]> xs).
Proof. unfold numbers. by rewrite list_fmap_insert. Qed.

Lemma Array_set_inside (a : array) (i : nat) (v : value) :
  i < length a -> (Z.of_nat (length a) <= MAX_LENGTH)%Z ->
  Array_set a (Z.of_nat i) v = <[i := Some v]> a.
Proof.
  intros Hi Hmax. unfold Array_set. zcases. rewrite Nat2Z.id.
  destruct (decide (i < length a)); [reflexivity | lia].
Qed.

Lemma Vector_setAt_numbers xs (x : Z) (i : nat) :
  length xs <> 1 -> (Z.of_nat (length xs) <= MAX_LENGTH)%Z -> i < length xs ->
  Vector.setAt (vec xs) x (Z.of_nat i) = Ok (vec (<[i := x]> xs)).
Proof.
  intros Hlen Hmax Hi. unfold Vector.setAt, Vector.checkBounds.
  rewrite Vector_dimension_vec. zcases. cbn [vec Vector._vector].
  rewrite Array_of_spread_numbers by assumption. cbn [bind].
  unfold Vector.constructor.
  rewrite Array_set_inside by (rewrite numbers_length; assumption).
  by rewrite numbers_insert.
Qed.

(** X3.  For a numeric vector of a dimension other than 1, [setAt(x, i)] at
    a valid index returns a vector of the same dimension that holds [x] at
    [i] and reads as the receiver at every other index. *)
Theorem X3_Vector_setAt_getAt (xs : list Z) (x : Z) (i : nat) :
  length xs <> 1 -> (Z.of_nat (length xs) <= MAX_LENGTH)%Z -> i < length xs ->
  exists r,
    Vector.setAt (vec xs) x (Z.of_nat i) = Ok r
    /\ Vector.dimension r = Vector.dimension (vec xs)
    /\ Vector.getAt r (Z.of_nat i) = Ok (Num x)
    /\ forall j : nat, j <> i ->
         Vector.getAt r (Z.of_nat j) = Vector.getAt (vec xs) (Z.of_nat j).
Proof.
  intros Hlen Hmax Hi. exists (vec (<[i := x]> xs)).
  split; [by apply Vector_setAt_numbers|].
  split; [by rewrite !Vector_dimension_vec, length_insert|].
  split.
  - apply Vector_getAt_vec. by apply list_lookup_insert_eq.
  - intros j Hj. destruct (xs !! j) as [y|] eqn:Hy.
    + rewrite (Vector_getAt_vec xs j y Hy). apply Vector_getAt_vec.
      by rewrite list_lookup_insert_ne.
    + apply lookup_ge_None in Hy.
      rewrite !Vector_getAt_vec_beyond; [reflexivity | lia |].
      rewrite length_insert. lia.
Qed.

Lemma X3_witness :
  exists r,
    Vector.setAt (vec [4; 5; 6]%Z) 9 1 = Ok r
    /\ Vector.getAt r 1 = Ok (Num 9)
    /\ Vector.getAt r 2 = Ok (Num 6).
Proof.
  destruct (X3_Vector_setAt_getAt [4; 5; 6]%Z 9 1)
    as (r & Hset & _ & Hget & Hother).
  - simpl. lia.
  - apply Z.leb_le. reflexivity.
  - simpl. lia.
  - exists r. split; [exact Hset|]. split; [exact Hget|].
    refine (Hother 2 _). lia.
Defined.

(** X4.  On a vector with the single element [k], [setAt(x, 0)] copies the
    elements with [new Array(k)], which takes [k] for a length: for
    [1 <= k] the result has dimension [k], with [x] first and nothing
    behind it; for [k = 0] it is the vector [[x]]; for a negative [k] the
    call throws a [RangeError]. *)
Theorem X4_Vector_setAt_single_element (k x : Z) :
  ((1 <= k <= MAX_LENGTH)%Z ->
   exists r,
     Vector.setAt (vec [k]) x 0 = Ok r
     /\ Vector.dimension r = k
     /\ Vector.getAt r 0 = Ok (Num x)
     /\ forall j, (0 < j < k)%Z -> Vector.getAt r j = Ok Undefined)
  /\ (k = 0%Z -> Vector.setAt (vec [k]) x 0 = Ok (vec [x]))
  /\ ((k < 0)%Z -> Vector.setAt (vec [k]) x 0 = Throw RangeError).
Proof.
  assert (Hstart : Vector.setAt (vec [k]) x 0
                   = (arr <-- Array_new k;;
                      Ok (Vector.Build (Array_set arr 0 (Num x)))))
    by reflexivity.
  rewrite Hstart. clear Hstart. split; [|split].
  - intros Hk. rewrite Array_new_Z by lia. cbn [bind].
    set (n := Z.to_nat k).
    assert (Hset : Array_set (replicate n None) 0 (Num x)
                   = <[0 := Some (Num x)]> (replicate n None)).
    { apply (Array_set_inside _ 0); rewrite length_replicate; lia. }
    rewrite Hset. eexists. split; [reflexivity|].
    assert (Hdim : Vector.dimension
                     (Vector.Build (<[0 := Some (Num x)]> (replicate n None)))
                   = k).
    { unfold Vector.dimension, Array_length. cbn [Vector._vector].
      rewrite length_insert, length_replicate. lia. }
    split; [exact Hdim|]. split.
    + rewrite Vector_getAt_inside by (rewrite Hdim; lia).
      cbn [Vector._vector]. unfold Array_get. cbn [Z.ltb Z.compare Z.to_nat].
      rewrite list_lookup_insert_eq; [reflexivity|].
      rewrite length_replicate. lia.
    + intros j Hj. rewrite Vector_getAt_inside by (rewrite Hdim; lia).
      cbn [Vector._vector]. unfold Array_get. zcases.
      rewrite list_lookup_insert_ne by lia.
      by rewrite lookup_replicate_2 by lia.
  - intros ->. reflexivity.
  - intros Hk. by rewrite Array_new_invalid by lia.
Qed.

Lemma X4_witness :
  (exists r,
     Vector.setAt (vec [3]%Z) 9 0 = Ok r
     /\ Vector.dimension r = 3%Z
     /\ Vector.getAt r 2 = Ok Undefined)
  /\ Vector.setAt (vec [-2]%Z) 9 0 = Throw RangeError.
Proof.
  split.
  - destruct (proj1 (X4_Vector_setAt_single_element 3 9))
      as (r & Hset & Hdim & _ & Hrest); [unfold MAX_LENGTH; lia|].
    exists r. split; [exact Hset|]. split; [exact Hdim|].
    apply (Hrest 2%Z). lia.
  - apply (proj2 (proj2 (X4_Vector_setAt_single_element (-2) 9))). lia.
Defined.

(** X5.  [new Vector(v)] copies a numeric vector of a dimension other than
    1 element by element; from the vector with the single element [k >= 1]
    it makes a vector of dimension [k] with nothing in it. *)
Theorem X5_Vector_copy (value : option Z) :
  (forall xs, length xs <> 1 ->
     Vector.constructor (Vector.OfVector (vec xs)) value = Ok (vec xs))
  /\ (forall k, (1 <= k <= MAX_LENGTH)%Z ->
        exists r,
          Vector.constructor (Vector.OfVector (vec [k])) value = Ok r
          /\ Vector.dimension r = k
          /\ forall j, (0 <= j < k)%Z -> Vector.getAt r j = Ok Undefined).
Proof.
  split.
  - intros xs Hlen. unfold Vector.constructor, Vector.toArray.
    cbn [vec Vector._vector].
    by rewrite Array_of_spread_numbers.
  - intros k Hk.
    assert (Hstart : Vector.constructor (Vector.OfVector (vec [k])) value
                     = (arr <-- Array_new k;; Ok (Vector.Build arr)))
      by reflexivity.
    rewrite Hstart, Array_new_Z by lia. cbn [bind].
    eexists. split; [reflexivity|].
    assert (Hdim : Vector.dimension
                     (Vector.Build (replicate (Z.to_nat k) None)) = k).
    { unfold Vector.dimension, Array_length. cbn [Vector._vector].
      rewrite length_replicate. lia. }
    split; [exact Hdim|].
    intros j Hj. rewrite Vector_getAt_inside by (rewrite Hdim; lia).
    cbn [Vector._vector]. by rewrite Array_get_replicate by lia.
Qed.

Lemma X5_witness :
  Vector.constructor (Vector.OfVector (vec [4; 5]%Z)) None = Ok (vec [4; 5]%Z)
  /\ exists r,
       Vector.constructor (Vector.OfVector (vec [2]%Z)) None = Ok r
       /\ Vector.dimension r = 2%Z.
Proof.
  split.
  - apply (proj1 (X5_Vector_copy None)). simpl. lia.
  - destruct (proj2 (X5_Vector_copy None) 2%Z) as (r & Hr & Hdim & _);
      [unfold MAX_LENGTH; lia|].
    exists r. split; assumption.
Defined.

Lemma foldl_seq_ext {X} (f g : X -> nat -> X) (n : nat) (s : X) :
  (forall acc i, i < n -> f acc i = g acc i) ->
  foldl f s (seq 0 n) = foldl g s (seq 0 n).
Proof.
  intros H. induction n as [|n IH]; [reflexivity|].
  rewrite seq_S, !foldl_app, IH by (intros; apply H; lia).
  cbn [foldl]. apply H. lia.
Qed.

Lemma Vector_checkDimensions_differ (v w : Vector.t) :
  Vector.dimension w <> Vector.dimension v ->
  Vector.checkDimensions v w = Throw DimensionMismatch.
Proof. intros H. unfold Vector.checkDimensions. zcases. reflexivity. Qed.

Lemma Vector_scalarProduct_numbers xs ws :
  length xs = length ws ->
  Vector.scalarProduct (vec xs) (vec ws) = Ok (Num (dot xs ws)).
Proof.
  intros Hlen. unfold Vector.scalarProduct, Vector.checkDimensions.
  rewrite !Vector_dimension_vec. zcases. unfold for_loop. cbn [bind].
  destruct (foldM_range_inv
    (fun k s =>
       s = Num (foldl (fun acc i =>
                         (acc + default 0 (ws !! i) * default 0 (xs !! i))%Z)
                      0%Z (seq 0 k)))
    (fun i sum =>
       a <-- Vector.getAt (vec ws) i;;
       b <-- Vector.getAt (vec xs) i;;
       Ok (js_add sum (js_mul a b)))
    (length xs) (Num 0)) as (s & Hrun & ->).
  - reflexivity.
  - intros k s Hk ->.
    destruct (lookup_lt_is_Some_2 xs k) as [x Hx]; [lia|].
    destruct (lookup_lt_is_Some_2 ws k) as [w Hw]; [lia|].
    rewrite (Vector_getAt_vec _ _ _ Hw), (Vector_getAt_vec _ _ _ Hx).
    cbn [bind js_add js_mul]. eexists. split; [reflexivity|].
    rewrite seq_S, foldl_app. cbn [foldl Nat.add]. by rewrite Hw, Hx.
  - exact Hrun.
Qed.

Lemma dot_comm xs ws : length xs = length ws -> dot xs ws = dot ws xs.
Proof.
  intros Hlen. unfold dot. rewrite <- Hlen.
  apply foldl_seq_ext. intros acc i _. lia.
Qed.

(** X6.  [scalarProduct] throws [DimensionMismatch] for every two vectors
    of different dimensions; for numeric vectors of one dimension it
    returns the sum of [w[i] * v[i]], accumulated from 0 in increasing
    [i]. *)
Theorem X6_Vector_scalarProduct :
  (forall v w : Vector.t,
     Vector.dimension w <> Vector.dimension v ->
     Vector.scalarProduct v w = Throw DimensionMismatch)
  /\ (forall xs ws : list Z,
        Vector.dimension (vec ws) = Vector.dimension (vec xs) ->
        Vector.scalarProduct (vec xs) (vec ws)
        = Ok (Num (foldl (fun acc i =>
                            (acc + default 0 (ws !! i)
                                   * default 0 (xs !! i))%Z)
                         0%Z (seq 0 (length xs))))).
Proof.
  split.
  - intros v w H. unfold Vector.scalarProduct.
    by rewrite Vector_checkDimensions_differ.
  - intros xs ws H. rewrite !Vector_dimension_vec in H.
    apply Vector_scalarProduct_numbers. lia.
Qed.

Lemma X6_witness :
  Vector.scalarProduct (vec [1; 2]%Z) (vec [1; 2; 3]%Z)
  = Throw DimensionMismatch
  /\ Vector.scalarProduct (vec [1; 2; 3]%Z) (vec [4; 5; 6]%Z) = Ok (Num 32).
Proof.
  split.
  - apply (proj1 X6_Vector_scalarProduct). discriminate.
  - apply (proj2 X6_Vector_scalarProduct [1; 2; 3]%Z [4; 5; 6]%Z).
    reflexivity.
Defined.

(** X7.  [scalarProduct] is commutative on numeric vectors, of equal
    dimensions or not: [a.scalarProduct(b)] and [b.scalarProduct(a)]
    return the same number or throw the same error. *)
Theorem X7_Vector_scalarProduct_commutative (xs ws : list Z) :
  Vector.scalarProduct (vec xs) (vec ws)
  = Vector.scalarProduct (vec ws) (vec xs).
Proof.
  destruct (decide (length xs = length ws)) as [Hlen|Hlen].
  - rewrite !Vector_scalarProduct_numbers by lia. by rewrite dot_comm.
  - unfold Vector.scalarProduct.
    rewrite !Vector_checkDimensions_differ;
      [reflexivity | |]; rewrite !Vector_dimension_vec; lia.
Qed.





Lemma zip_with_add_comm xs ws : zip_with Z.add xs ws = zip_with Z.add ws xs.
Proof.
  revert ws. induction xs as [|x xs IH]; intros [|w ws]; try reflexivity.
  cbn [zip_with]. rewrite IH. f_equal. lia.
Qed.

(** X9.  On numeric vectors [add] is commutative exactly when the
    dimensions are equal: with different dimensions one order returns a
    vector and the other throws. *)
Theorem X9_Vector_add_commutative_iff (xs ws : list Z) :
  Vector.add (vec xs) (vec ws) = Vector.add (vec ws) (vec xs)
  <-> Vector.dimension (vec xs) = Vector.dimension (vec ws).
Proof.
  rewrite !Vector_dimension_vec. split.
  - intros Heq.
    destruct (Nat.lt_trichotomy (length xs) (length ws)) as [Hlt|[Heq'|Hgt]].
    + rewrite Vector_add_fits, Vector_add_short in Heq by lia. discriminate.
    + lia.
    + rewrite Vector_add_short, Vector_add_fits in Heq by lia. discriminate.
  - intros Hlen. rewrite !Vector_add_fits by lia.
    by rewrite zip_with_add_comm.
Qed.

Lemma X9_witness :
  Vector.add (vec [1; 2]%Z) (vec [3; 4]%Z)
  = Vector.add (vec [3; 4]%Z) (vec [1; 2]%Z).
Proof.
  apply (proj2 (X9_Vector_add_commutative_iff [1; 2]%Z [3; 4]%Z)).
  reflexivity.
Defined.



(** * Further properties of [Matrix] *)

(** X11.  [new Matrix(rows)] from a 2D array: when it returns, the matrix
    holds those rows, has at least one row, and every row has the length
    [m] of the first; it throws a [TypeError] for no rows and
    [InvalidMatrixShape] when some row differs in length from the
    first. *)
Theorem X11_Matrix_of_rows (rows : list array) (arg1 arg2 : option Z) :
  (forall M,
     Matrix.constructor (Matrix.OfArray rows) arg1 arg2 = Ok M ->
     Matrix._matrix M = rows
     /\ (1 <= Matrix.n M)%Z
     /\ exists cols,
          Matrix.m M = Ok cols
          /\ forall row, In row rows -> Array_length row = cols)
  /\ (rows = [] ->
      Matrix.constructor (Matrix.OfArray rows) arg1 arg2 = Throw TypeError)
  /\ (forall row0 rest row,
        rows = row0 :: rest -> In row rest ->
        Array_length row <> Array_length row0 ->
        Matrix.constructor (Matrix.OfArray rows) arg1 arg2
        = Throw InvalidMatrixShape).
Proof.
  unfold Matrix.constructor, Matrix.assertValidity. split; [|split].
  - intros M. destruct rows as [|row0 rest]; [discriminate|].
    destruct (forallb _ (row0 :: rest)) eqn:Hall; [|discriminate].
    cbn [negb bind]. intros [= <-]. cbn [Matrix._matrix].
    split; [reflexivity|]. split.
    { unfold Matrix.n, Array_length. cbn [Matrix._matrix length]. lia. }
    exists (Array_length row0). split; [reflexivity|].
    intros row Hrow. rewrite forallb_forall in Hall.
    by apply Z.eqb_eq, Hall.
  - intros ->. reflexivity.
  - intros row0 rest row -> Hrow Hlen.
    destruct (forallb _ (row0 :: rest)) eqn:Hall; [|reflexivity].
    rewrite forallb_forall in Hall.
    specialize (Hall row (or_intror Hrow)). apply Z.eqb_eq in Hall.
    contradiction.
Qed.

Lemma X11_witness :
  Matrix.constructor (Matrix.OfArray (numbers <$> [[1; 2]; [3]]%Z)) None None
  = Throw InvalidMatrixShape
  /\ Matrix.m (mat [[1; 2]; [3; 4]]%Z) = Ok 2%Z.
Proof.
  split.
  - apply (proj2 (proj2 (X11_Matrix_of_rows
                           (numbers <$> [[1; 2]; [3]]%Z) None None))
             (numbers [1; 2]%Z) [numbers [3]%Z] (numbers [3]%Z));
      [reflexivity | left; reflexivity | discriminate].
  - destruct (proj1 (X11_Matrix_of_rows
                       (numbers <$> [[1; 2]; [3; 4]]%Z) None None)
                (mat [[1; 2]; [3; 4]]%Z))
      as (_ & _ & cols & Hm & Hrows); [reflexivity|].
    rewrite Hm. f_equal. symmetry.
    apply (Hrows (numbers [3; 4]%Z)). right. left. reflexivity.
Defined.

(** X12.  [new Matrix(n, m, value)] with [n >= 1] is the [n]-by-[m] matrix
    all of whose elements are [value] (the two-argument form, C1, is not
    the case [m = n] of it). *)
Theorem X12_Matrix_filled (n m v : Z) :
  (1 <= n <= MAX_LENGTH)%Z -> (0 <= m <= MAX_LENGTH)%Z ->
  exists M,
    Matrix.constructor (Matrix.OfNumber n) (Some m) (Some v) = Ok M
    /\ Matrix.n M = n
    /\ Matrix.m M = Ok m
    /\ forall i j, (0 <= i < n)%Z -> (0 <= j < m)%Z ->
         Matrix.getAt M i j = Ok (Num v).
Proof.
  intros Hn Hm.
  exists (Matrix.Build
            (tabulate (Z.to_nat n) (Z.to_nat m) (fun _ _ => Some (Num v)))).
  split.
  - rewrite <- (Z2Nat.id n) at 1 by lia.
    apply Matrix_constructor_fill; try lia; [|reflexivity].
    cbn. f_equal. lia.
  - split; [rewrite Matrix_n_tabulate; lia|].
    split; [rewrite Matrix_m_tabulate by lia; f_equal; lia|].
    intros i j Hi Hj.
    rewrite <- (Z2Nat.id i), <- (Z2Nat.id j) by lia.
    by rewrite Matrix_getAt_tabulate by lia.
Qed.

Lemma X12_witness :
  exists M,
    Matrix.constructor (Matrix.OfNumber 2) (Some 3%Z) (Some 7%Z) = Ok M
    /\ Matrix.m M = Ok 3%Z
    /\ Matrix.getAt M 1 2 = Ok (Num 7).
Proof.
  destruct (X12_Matrix_filled 2 3 7) as (M & HM & _ & Hm & Hget);
    try (unfold MAX_LENGTH; lia).
  exists M. split; [exact HM|]. split; [exact Hm|].
  apply Hget; lia.
Defined.

Lemma in_bounds_spec (rows : list array) (i j cols : Z) :
  Matrix.m (Matrix.Build rows) = Ok cols ->
  in_bounds rows i j
  = ((0 <=? i)%Z && (i <? Array_length rows)%Z
     && (0 <=? j)%Z && (j <? cols)%Z).
Proof.
  unfold Matrix.m, in_bounds. cbn [Matrix._matrix].
  destruct rows as [|row0 rest]; [discriminate|]. by intros [= <-].
Qed.

Lemma in_bounds_row (rows : list array) (i j : Z) :
  in_bounds rows i j = true ->
  (0 <= i)%Z /\ Z.to_nat i < length rows.
Proof.
  unfold in_bounds, Array_length. intros H.
  repeat match goal with
    | Hb : _ && _ = true |- _ => apply andb_prop in Hb as [? ?]
    end.
  match goal with H0 : (0 <=? i)%Z = true |- _ => apply Z.leb_le in H0 end.
  match goal with H1 : (i <? _)%Z = true |- _ => apply Z.ltb_lt in H1 end.
  lia.
Qed.

(** X13.  For every matrix, rectangular or not, with rows or without,
    [getAt(i, j)] and [setAt(x, i, j)] throw [IndexOutOfBounds] when [i] or
    [j] is negative, [i] is not below [n], or [j] is not below [m]; at any
    other pair [getAt] returns.  In particular a matrix without rows
    answers every [getAt] with [IndexOutOfBounds], not with the
    [TypeError] of [m]. *)
Theorem X13_Matrix_index_bounds (M : Matrix.t) (x i j : Z) :
  ((i < 0)%Z \/ (j < 0)%Z \/ (Matrix.n M <= i)%Z
   \/ (exists cols, Matrix.m M = Ok cols /\ (cols <= j)%Z) ->
   Matrix.getAt M i j = Throw IndexOutOfBounds
   /\ Matrix.setAt M x i j = Throw IndexOutOfBounds)
  /\ (forall cols,
        Matrix.m M = Ok cols ->
        (0 <= i < Matrix.n M)%Z -> (0 <= j < cols)%Z ->
        exists y, Matrix.getAt M i j = Ok y).
Proof.
  destruct M as [rows]. split.
  - intros H.
    assert (Hout : in_bounds rows i j = false).
    { destruct H as [H|[H|[H|(cols & Hm & H)]]].
      - unfold in_bounds. zcases; reflexivity.
      - unfold in_bounds. destruct (Z.leb_spec 0 j); [lia|].
        by rewrite !andb_false_r.
      - unfold Matrix.n in H. cbn [Matrix._matrix] in H.
        unfold in_bounds. destruct (Z.ltb_spec i (Array_length rows)); [lia|].
        by rewrite !andb_false_r.
      - rewrite (in_bounds_spec _ _ _ _ Hm).
        destruct (Z.ltb_spec j cols); [lia|]. by rewrite !andb_false_r. }
    unfold Matrix.getAt, Matrix.setAt.
    rewrite Matrix_checkBounds_in_bounds. cbn [Matrix._matrix].
    by rewrite Hout.
  - intros cols Hm Hi Hj. unfold Matrix.n in Hi. cbn [Matrix._matrix] in Hi.
    assert (Hin : in_bounds rows i j = true).
    { rewrite (in_bounds_spec _ _ _ _ Hm). zcases; reflexivity. }
    unfold Matrix.getAt. rewrite Matrix_checkBounds_in_bounds.
    cbn [Matrix._matrix]. rewrite Hin. cbn [bind].
    apply in_bounds_row in Hin as [_ Hrow].
    unfold get2. destruct (Z.ltb_spec i 0); [lia|].
    destruct (lookup_lt_is_Some_2 rows (Z.to_nat i) Hrow) as [row ->].
    eauto.
Qed.

Lemma X13_witness :
  Matrix.getAt (Matrix.Build []) 0 0 = Throw IndexOutOfBounds
  /\ Matrix.getAt (mat [[1; 2]; [3; 4]]%Z) 1 2 = Throw IndexOutOfBounds
  /\ exists y, Matrix.getAt (mat [[1; 2]; [3; 4]]%Z) 1 1 = Ok y.
Proof.
  split; [|split].
  - apply (proj1 (X13_Matrix_index_bounds (Matrix.Build []) 0 0 0)).
    right. right. left. vm_compute. congruence.
  - apply (proj1 (X13_Matrix_index_bounds (mat [[1; 2]; [3; 4]]%Z) 0 1 2)).
    right. right. right. exists 2%Z. split; [reflexivity | lia].
  - apply (proj2 (X13_Matrix_index_bounds (mat [[1; 2]; [3; 4]]%Z) 0 1 1)
             2%Z eq_refl); vm_compute; split; congruence.
Defined.

Lemma is_matrix_rows_length A :
  is_matrix A = true -> ncols A <> 1 ->
  forall i row, A !! i = Some row -> length row <> 1.
Proof.
  intros HA Hm i row Hrow.
  apply is_matrix_inv in HA as (_ & Hrect & _).
  by rewrite (Hrect _ _ Hrow).
Qed.

Lemma Matrix_setAt_numbers A (x : Z) (i j : nat) :
  is_matrix A = true -> ncols A <> 1 -> i < length A -> j < ncols A ->
  Matrix.setAt (mat A) x (Z.of_nat i) (Z.of_nat j)
  = Ok (mat (tabulate (length A) (ncols A) (upd (entry A) i j x))).
Proof.
  intros HA Hm Hi Hj. unfold Matrix.setAt.
  rewrite Matrix_to2dArray_numbers by (by apply is_matrix_rows_length).
  pose proof (mat_tabulate A HA) as Hmat.
  pose proof (is_matrix_inv A HA) as (Hn & _ & _ & Hm_max).
  rewrite Hmat at 1. rewrite Matrix_checkBounds_tabulate by assumption.
  cbn [bind]. unfold mat in Hmat. injection Hmat as Hrows.
  rewrite Hrows, set2_tabulate by assumption. cbn [bind].
  rewrite Matrix_constructor_tabulate by assumption.
  rewrite mat_of_tabulate. do 2 f_equal.
  apply tabulate_ext. intros a b _ _. unfold upd, cells.
  by destruct (decide (a = i /\ b = j)).
Qed.

(** X14.  For a numeric matrix with a number of columns other than 1,
    [setAt(x, i, j)] at a valid pair returns a matrix of the same shape
    that holds [x] at [(i, j)] and reads as the receiver everywhere
    else. *)
Theorem X14_Matrix_setAt_getAt (A : list (list Z)) (x : Z) (i j : nat) :
  is_matrix A = true -> ncols A <> 1 -> i < length A -> j < ncols A ->
  exists R,
    Matrix.setAt (mat A) x (Z.of_nat i) (Z.of_nat j) = Ok R
    /\ Matrix.n R = Matrix.n (mat A)
    /\ Matrix.m R = Matrix.m (mat A)
    /\ Matrix.getAt R (Z.of_nat i) (Z.of_nat j) = Ok (Num x)
    /\ forall i' j' : nat,
         i' < length A -> j' < ncols A -> (i', j') <> (i, j) ->
         Matrix.getAt R (Z.of_nat i') (Z.of_nat j')
         = Matrix.getAt (mat A) (Z.of_nat i') (Z.of_nat j').
Proof.
  intros HA Hm Hi Hj.
  exists (mat (tabulate (length A) (ncols A) (upd (entry A) i j x))).
  split; [by apply Matrix_setAt_numbers|].
  split; [by rewrite !Matrix_n_mat, tabulate_length|].
  split.
  { rewrite (Matrix_m_mat A) by lia. rewrite mat_of_tabulate.
    apply Matrix_m_tabulate. lia. }
  split.
  - rewrite Matrix_getAt_mat_tabulate by assumption. unfold upd.
    destruct (decide (i = i /\ j = j)); [reflexivity | tauto].
  - intros i' j' Hi' Hj' Hne.
    rewrite Matrix_getAt_mat_tabulate, (Matrix_getAt_mat A) by assumption.
    unfold upd. destruct (decide (i' = i /\ j' = j)) as [[-> ->]|];
      [contradiction | reflexivity].
Qed.

Lemma X14_witness :
  exists R,
    Matrix.setAt (mat [[1; 2]; [3; 4]]%Z) 9 1 0 = Ok R
    /\ Matrix.getAt R 1 0 = Ok (Num 9)
    /\ Matrix.getAt R 1 1 = Ok (Num 4).
Proof.
  destruct (X14_Matrix_setAt_getAt [[1; 2]; [3; 4]]%Z 9 1 0 eq_refl)
    as (R & Hset & _ & _ & Hget & Hother); try (simpl; lia).
  exists R. split; [exact Hset|]. split; [exact Hget|].
  refine (Hother 1 1 _ _ _); try (simpl; lia). congruence.
Defined.

(** X15.  For every matrix, setting one value through [setMultiple] is
    [setAt]: [M.setMultiple([x], [[i, j]])] and [M.setAt(x, i, j)] return
    the same matrix or throw the same error. *)
Theorem X15_Matrix_setMultiple_single (M : Matrix.t) (x i j : Z) :
  Matrix.setMultiple M [Some (Num x)] [(i, j)] = Matrix.setAt M x i j.
Proof.
  destruct M as [rows].
  unfold Matrix.setMultiple, Matrix.setMultiple_body, Matrix.then_,
    Matrix.setMultiple_check, Matrix.setMultiple_copy,
    Matrix.setMultiple_apply, Matrix.setMultiple_return, Matrix.setAt.
  cbn [fmap list_fmap Matrix.each Matrix.then_ Matrix.this_matrix
       Matrix._matrix].
  unfold Matrix.then_.
  destruct (Matrix.checkBounds (Matrix.Build rows) i j) as [[]|e];
    [|reflexivity].
  cbn [bind Matrix.this_matrix].
  destruct (Matrix.to2dArray (Matrix.Build rows)) as [copy|e];
    [|reflexivity].
  change ([(i, j)] !! Z.to_nat 0) with (Some (i, j)).
  cbn [bind Matrix.arr Matrix.this_matrix].
  destruct (set2 copy i j (Num x)) as [copy'|e]; reflexivity.
Qed.

(** X16.  The copying constructors.  [new Matrix(M)] copies numeric rows
    none of which has exactly one element, whatever their lengths (it does
    not validate); [new Matrix(v)] makes the one-row matrix of a numeric
    vector of a dimension other than 1; and the copy of the 1-by-1 matrix
    [[[k]]], [k >= 1], is a 1-by-[k] matrix with nothing in it. *)
Theorem X16_Matrix_copy (arg1 arg2 : option Z) :
  (forall A : list (list Z),
     (forall i row, A !! i = Some row -> length row <> 1) ->
     Matrix.constructor (Matrix.OfMatrix (mat A)) arg1 arg2 = Ok (mat A))
  /\ (forall xs : list Z,
        length xs <> 1 ->
        Matrix.constructor (Matrix.OfVector (vec xs)) arg1 arg2
        = Ok (mat [xs]))
  /\ (forall k : Z,
        (1 <= k <= MAX_LENGTH)%Z ->
        exists M,
          Matrix.constructor (Matrix.OfMatrix (mat [[k]])) arg1 arg2 = Ok M
          /\ Matrix.n M = 1%Z
          /\ Matrix.m M = Ok k
          /\ forall j, (0 <= j < k)%Z -> Matrix.getAt M 0 j = Ok Undefined).
Proof.
  split; [|split].
  - intros A HA. unfold Matrix.constructor.
    by rewrite Matrix_to2dArray_numbers.
  - intros xs Hlen. unfold Matrix.constructor, Vector.toArray.
    cbn [vec Vector._vector]. by rewrite Array_of_spread_numbers.
  - intros k Hk.
    assert (Hstart : Matrix.constructor (Matrix.OfMatrix (mat [[k]]))
                       arg1 arg2
                     = (row <-- Array_new k;; Ok (Matrix.Build [row]))).
    { change (Matrix.constructor (Matrix.OfMatrix (mat [[k]])) arg1 arg2)
        with (arr <-- (b <-- Array_new k;;
                       r <-- Ok (@nil array);; Ok (b :: r));;
              Ok (Matrix.Build arr)).
      by destruct (Array_new k). }
    rewrite Hstart, Array_new_Z by lia. cbn [bind].
    change [replicate (Z.to_nat k) (@None value)]
      with (replicate 1 (replicate (Z.to_nat k) (@None value))).
    rewrite replicate_tabulate. eexists. split; [reflexivity|].
    split; [apply Matrix_n_tabulate|].
    split; [rewrite Matrix_m_tabulate by lia; f_equal; lia|].
    intros j Hj. rewrite <- (Z2Nat.id j) by lia.
    change 0%Z with (Z.of_nat 0).
    by rewrite Matrix_getAt_tabulate by lia.
Qed.

Lemma X16_witness :
  Matrix.constructor (Matrix.OfMatrix (mat [[1; 2]; [3; 4]]%Z)) None None
  = Ok (mat [[1; 2]; [3; 4]]%Z)
  /\ Matrix.constructor (Matrix.OfVector (vec [1; 2; 3]%Z)) None None
     = Ok (mat [[1; 2; 3]]%Z)
  /\ exists M,
       Matrix.constructor (Matrix.OfMatrix (mat [[3]]%Z)) None None = Ok M
       /\ Matrix.m M = Ok 3%Z.
Proof.
  split; [|split].
  - apply (proj1 (X16_Matrix_copy None None)).
    intros [|[|i]] row [= <-]; simpl; lia.
  - apply (proj1 (proj2 (X16_Matrix_copy None None))). simpl. lia.
  - destruct (proj2 (proj2 (X16_Matrix_copy None None)) 3%Z)
      as (M & HM & _ & Hm & _); [unfold MAX_LENGTH; lia|].
    exists M. split; assumption.
Defined.

(** ** Element-wise operations *)

Lemma map_from_tabulated (f : value -> Z -> result value)
    (h h' : nat -> value) (c k : nat) :
  (forall j, k <= j < k + c -> f (h j) (Z.of_nat j) = Ok (h' j)) ->
  map_from f (Z.of_nat k) ((fun j => Some (h j)) <$> seq k c)
  = Ok ((fun j => Some (h' j)) <$> seq k c).
Proof.
  revert k. induction c as [|c IH]; intros k Hf; [reflexivity|].
  cbn [seq fmap list_fmap map_from]. rewrite Hf by lia. cbn [bind].
  replace (Z.of_nat k + 1)%Z with (Z.of_nat (S k)) by lia.
  rewrite IH by (intros; apply Hf; lia). reflexivity.
Qed.

Lemma mapM_from_tabulated {A B} (f : A -> Z -> result B)
    (h : nat -> A) (h' : nat -> B) (c k : nat) :
  (forall i, k <= i < k + c -> f (h i) (Z.of_nat i) = Ok (h' i)) ->
  mapM_from f (Z.of_nat k) (h <$> seq k c) = Ok (h' <$> seq k c).
Proof.
  revert k. induction c as [|c IH]; intros k Hf; [reflexivity|].
  cbn [seq fmap list_fmap mapM_from]. rewrite Hf by lia. cbn [bind].
  replace (Z.of_nat k + 1)%Z with (Z.of_nat (S k)) by lia.
  rewrite IH by (intros; apply Hf; lia). reflexivity.
Qed.

Lemma Matrix_add_tabulate (n m : nat) (a b : nat -> nat -> Z) :
  0 < n ->
  Matrix.add (Matrix.Build (tabulate n m (cells a)))
             (Matrix.Build (tabulate n m (cells b)))
  = Ok (Matrix.Build (tabulate n m (cells (fun i j => (a i j + b i j)%Z)))).
Proof.
  intros Hn. set (matrix := Matrix.Build (tabulate n m (cells b))).
  assert (Hcheck : Matrix.checkDimensions
                     (Matrix.Build (tabulate n m (cells a))) matrix = Ok tt).
  { unfold Matrix.checkDimensions, matrix.
    rewrite !Matrix_n_tabulate, !Matrix_m_tabulate by assumption.
    rewrite Z.eqb_refl. cbn [negb bind]. by rewrite Z.eqb_refl. }
  unfold Matrix.add. rewrite Hcheck. cbn [bind Matrix._matrix].
  unfold mapM, tabulate at 1. change 0%Z with (Z.of_nat 0).
  rewrite (mapM_from_tabulated _ _
             (fun i => cells (fun i j => (a i j + b i j)%Z) i <$> seq 0 m)).
  - cbn [bind]. by apply (Matrix_constructor_tabulate n m).
  - intros i Hi. unfold Array_map, cells. change 0%Z with (Z.of_nat 0).
    apply (map_from_tabulated _ (fun j => Num (a i j))
             (fun j => Num (a i j + b i j))).
    intros j Hj. unfold matrix.
    rewrite Matrix_getAt_tabulate by lia. reflexivity.
Qed.

Lemma Matrix_add_mismatch A B :
  is_matrix A = true -> is_matrix B = true ->
  length A <> length B \/ ncols A <> ncols B ->
  Matrix.add (mat A) (mat B) = Throw MatrixDimensionMismatch.
Proof.
  intros HA HB Hne.
  apply is_matrix_inv in HA as (HnA & _). apply is_matrix_inv in HB as (HnB & _).
  unfold Matrix.add, Matrix.checkDimensions.
  rewrite !Matrix_n_mat, !Matrix_m_mat by assumption.
  destruct (Z.eqb_spec (Z.of_nat (length A)) (Z.of_nat (length B)));
    [|reflexivity].
  cbn [negb bind].
  destruct (Z.eqb_spec (Z.of_nat (ncols A)) (Z.of_nat (ncols B)));
    [lia | reflexivity].
Qed.

Lemma Matrix_add_rows A B :
  is_matrix A = true -> is_matrix B = true ->
  length A = length B -> ncols A = ncols B ->
  Matrix.add (mat A) (mat B)
  = Ok (mat (tabulate (length A) (ncols A)
               (fun i j => (entry A i j + entry B i j)%Z))).
Proof.
  intros HA HB Hn Hm.
  rewrite (mat_tabulate A HA), (mat_tabulate B HB), <- Hn, <- Hm.
  apply is_matrix_inv in HA as (HnA & _).
  rewrite Matrix_add_tabulate by assumption. by rewrite mat_of_tabulate.
Qed.

(** X17.  [add] on numeric matrices: it throws the dimension error when
    the shapes differ, in rows or in columns; for equal shapes it returns
    the matrix of that shape whose cell [(i, j)] is
    [A[i][j] + B[i][j]]. *)
Theorem X17_Matrix_add (A B : list (list Z)) :
  is_matrix A = true -> is_matrix B = true ->
  (Matrix.n (mat A) <> Matrix.n (mat B)
   \/ Matrix.m (mat A) <> Matrix.m (mat B) ->
   Matrix.add (mat A) (mat B) = Throw MatrixDimensionMismatch)
  /\ (Matrix.n (mat A) = Matrix.n (mat B) ->
      Matrix.m (mat A) = Matrix.m (mat B) ->
      exists R,
        Matrix.add (mat A) (mat B) = Ok R
        /\ Matrix.n R = Matrix.n (mat A)
        /\ Matrix.m R = Matrix.m (mat A)
        /\ forall i j, i < length A -> j < ncols A ->
             Matrix.getAt R (Z.of_nat i) (Z.of_nat j)
             = Ok (Num (entry A i j + entry B i j))).
Proof.
  intros HA HB.
  pose proof (is_matrix_inv A HA) as (HnA & _).
  pose proof (is_matrix_inv B HB) as (HnB & _).
  rewrite !Matrix_n_mat, !Matrix_m_mat by assumption. split.
  - intros Hne. apply Matrix_add_mismatch; try assumption.
    destruct Hne as [Hne|Hne]; [left | right]; congruence.
  - intros Hn Hm. injection Hm as Hm.
    exists (mat (tabulate (length A) (ncols A)
                   (fun i j => (entry A i j + entry B i j)%Z))).
    split; [apply Matrix_add_rows; try assumption; lia|].
    split; [by rewrite Matrix_n_mat, tabulate_length|].
    split; [rewrite mat_of_tabulate; by apply Matrix_m_tabulate|].
    intros i j Hi Hj. by rewrite Matrix_getAt_mat_tabulate.
Qed.

Lemma X17_witness :
  Matrix.add (mat [[1; 2]]%Z) (mat [[1; 2]; [3; 4]]%Z)
  = Throw MatrixDimensionMismatch
  /\ exists R,
       Matrix.add (mat [[1; 2]; [3; 4]]%Z) (mat [[10; 20]; [30; 40]]%Z)
       = Ok R
       /\ Matrix.getAt R 1 0 = Ok (Num 33).
Proof.
  split.
  - apply (proj1 (X17_Matrix_add [[1; 2]]%Z [[1; 2]; [3; 4]]%Z
                    eq_refl eq_refl)).
    left. discriminate.
  - destruct (proj2 (X17_Matrix_add [[1; 2]; [3; 4]]%Z
                       [[10; 20]; [30; 40]]%Z eq_refl eq_refl)
                eq_refl eq_refl) as (R & HR & _ & _ & Hget).
    exists R. split; [exact HR|]. refine (Hget 1 0 _ _); simpl; lia.
Defined.

(** X18.  [add] is commutative on numeric matrices: [A.add(B)] and
    [B.add(A)] return the same matrix, or both throw the dimension
    error. *)
Theorem X18_Matrix_add_commutative (A B : list (list Z)) :
  is_matrix A = true -> is_matrix B = true ->
  Matrix.add (mat A) (mat B) = Matrix.add (mat B) (mat A).
Proof.
  intros HA HB.
  destruct (decide (length A = length B /\ ncols A = ncols B))
    as [[Hn Hm]|Hne].
  - rewrite !Matrix_add_rows by (assumption || lia).
    rewrite <- Hn, <- Hm. do 2 f_equal.
    apply tabulate_ext. intros i j _ _. lia.
  - rewrite !Matrix_add_mismatch by (assumption || lia). reflexivity.
Qed.

Lemma X18_witness :
  Matrix.add (mat [[1; 2]]%Z) (mat [[5; 6]]%Z)
  = Matrix.add (mat [[5; 6]]%Z) (mat [[1; 2]]%Z).
Proof.
  apply (X18_Matrix_add_commutative [[1; 2]]%Z [[5; 6]]%Z); reflexivity.
Defined.

Lemma Matrix_multiply_tabulate (n m : nat) (a : nat -> nat -> Z) (s : Z) :
  0 < n ->
  Matrix.multiply (Matrix.Build (tabulate n m (cells a))) s
  = Ok (Matrix.Build (tabulate n m (cells (fun i j => (a i j * s)%Z)))).
Proof.
  intros Hn. unfold Matrix.multiply. cbn [Matrix._matrix].
  unfold mapM, tabulate at 1. change 0%Z with (Z.of_nat 0).
  rewrite (mapM_from_tabulated _ _
             (fun i => cells (fun i j => (a i j * s)%Z) i <$> seq 0 m)).
  - cbn [bind]. by apply (Matrix_constructor_tabulate n m).
  - intros i Hi. unfold Array_map, cells. change 0%Z with (Z.of_nat 0).
    by apply (map_from_tabulated _ (fun j => Num (a i j))
                (fun j => Num (a i j * s))).
Qed.

Lemma Matrix_multiply_rows A (s : Z) :
  is_matrix A = true ->
  Matrix.multiply (mat A) s
  = Ok (mat (tabulate (length A) (ncols A) (fun i j => (entry A i j * s)%Z))).
Proof.
  intros HA. rewrite (mat_tabulate A HA).
  apply is_matrix_inv in HA as (Hn & _).
  rewrite Matrix_multiply_tabulate by assumption. by rewrite mat_of_tabulate.
Qed.

(** X19.  [multiply(scalar)] on a numeric matrix never fails and returns
    the matrix of the same shape whose cell [(i, j)] is
    [A[i][j] * scalar]. *)
Theorem X19_Matrix_multiply (A : list (list Z)) (s : Z) :
  is_matrix A = true ->
  exists R,
    Matrix.multiply (mat A) s = Ok R
    /\ Matrix.n R = Matrix.n (mat A)
    /\ Matrix.m R = Matrix.m (mat A)
    /\ forall i j, i < length A -> j < ncols A ->
         Matrix.getAt R (Z.of_nat i) (Z.of_nat j)
         = Ok (Num (entry A i j * s)).
Proof.
  intros HA. pose proof (is_matrix_inv A HA) as (Hn & _).
  exists (mat (tabulate (length A) (ncols A)
                 (fun i j => (entry A i j * s)%Z))).
  split; [by apply Matrix_multiply_rows|].
  split; [by rewrite !Matrix_n_mat, tabulate_length|].
  split.
  { rewrite (Matrix_m_mat A) by assumption. rewrite mat_of_tabulate.
    by apply Matrix_m_tabulate. }
  intros i j Hi Hj. by rewrite Matrix_getAt_mat_tabulate.
Qed.

Lemma X19_witness :
  exists R,
    Matrix.multiply (mat [[1; 2]; [3; 4]]%Z) 10 = Ok R
    /\ Matrix.getAt R 1 1 = Ok (Num 40).
Proof.
  destruct (X19_Matrix_multiply [[1; 2]; [3; 4]]%Z 10 eq_refl)
    as (R & HR & _ & _ & Hget).
  exists R. split; [exact HR|]. refine (Hget 1 1 _ _); simpl; lia.
Defined.



(** ** The algebra of products and transposes *)

Lemma identity_row_sum A i j (K k : nat) (s : Z) :
  i < K -> k <= K ->
  foldl (fun acc k' =>
           (acc + entry (identity_rows K) i k' * entry A k' j)%Z)
        s (seq 0 k)
  = if decide (i < k) then (s + entry A i j)%Z else s.
Proof.
  intros Hi. induction k as [|k IH]; intros Hk.
  - reflexivity.
  - rewrite seq_S, foldl_app, IH by lia. cbn [foldl]. simpl.
    unfold identity_rows. rewrite entry_tabulate by lia.
    destruct (decide (i = k)) as [->|Hne].
    + destruct (decide (k < k)), (decide (k < Datatypes.S k)); lia.
    + destruct (decide (i < k)), (decide (i < Datatypes.S k)); lia.
Qed.

Lemma identity_rows_product A :
  is_matrix A = true ->
  product_rows (identity_rows (length A)) A = A.
Proof.
  intros HA. rewrite (rows_tabulate A HA) at 3.
  pose proof (is_matrix_inv A HA) as (Hn & _).
  unfold product_rows. unfold identity_rows at 1.
  rewrite tabulate_length.
  apply tabulate_ext. intros i j Hi Hj. unfold product_cell.
  unfold identity_rows at 2. rewrite ncols_tabulate by assumption.
  rewrite identity_row_sum by lia.
  destruct (decide (i < length A)); lia.
Qed.

(** X21.  The identity is neutral on the left too: for every numeric
    matrix [M], [identity(M.n).matrixMultiplication(M)] equals [M]
    (columns or none). *)
Theorem X21_identity_is_left_neutral (A : list (list Z)) :
  is_matrix A = true ->
  (I <-- Matrix.identity (Matrix.n (mat A));;
   Matrix.matrixMultiplication I (mat A))
  = Ok (mat A).
Proof.
  intros HA. pose proof (is_matrix_inv A HA) as (Hn & _ & Hn_max & _).
  rewrite Matrix_n_mat, Matrix_identity_rows by assumption. cbn [bind].
  rewrite Matrix_product_rows; try assumption.
  - by rewrite identity_rows_product.
  - by apply is_matrix_tabulate.
  - unfold identity_rows. by rewrite ncols_tabulate.
Qed.

Lemma X21_witness :
  (I <-- Matrix.identity (Matrix.n (mat [[1; 2; 3]; [4; 5; 6]]%Z));;
   Matrix.matrixMultiplication I (mat [[1; 2; 3]; [4; 5; 6]]%Z))
  = Ok (mat [[1; 2; 3]; [4; 5; 6]]%Z).
Proof.
  apply (X21_identity_is_left_neutral [[1; 2; 3]; [4; 5; 6]]%Z). reflexivity.
Defined.

Lemma product_rows_is_matrix A B :
  is_matrix A = true -> is_matrix B = true ->
  is_matrix (product_rows A B) = true.
Proof.
  intros HA HB.
  apply is_matrix_inv in HA as (Hn & _ & Hn_max & _).
  apply is_matrix_inv in HB as (_ & _ & _ & Hp_max).
  by apply is_matrix_tabulate.
Qed.

Lemma transpose_rows_length A : length (transpose_rows A) = ncols A.
Proof. apply tabulate_length. Qed.

Lemma transpose_rows_ncols A :
  0 < ncols A -> ncols (transpose_rows A) = length A.
Proof. intros H. by apply ncols_tabulate. Qed.

Lemma transpose_rows_entry A i j :
  i < length A -> j < ncols A -> entry (transpose_rows A) j i = entry A i j.
Proof. intros Hi Hj. unfold transpose_rows. by rewrite entry_tabulate. Qed.

Lemma product_rows_length A B : length (product_rows A B) = length A.
Proof. apply tabulate_length. Qed.

Lemma product_rows_ncols A B :
  0 < length A -> ncols (product_rows A B) = ncols B.
Proof. intros H. by apply ncols_tabulate. Qed.

Lemma transpose_product_rows A B :
  is_matrix A = true -> is_matrix B = true ->
  ncols A = length B -> 0 < ncols B ->
  transpose_rows (product_rows A B)
  = product_rows (transpose_rows B) (transpose_rows A).
Proof.
  intros HA HB HK Hp.
  pose proof (is_matrix_inv A HA) as (HnA & _).
  pose proof (is_matrix_inv B HB) as (HnB & _).
  unfold transpose_rows at 1.
  rewrite product_rows_length, product_rows_ncols by assumption.
  unfold product_rows at 2.
  rewrite transpose_rows_length, transpose_rows_ncols by lia.
  apply tabulate_ext. intros j i Hj Hi.
  unfold product_rows. rewrite entry_tabulate by assumption.
  unfold product_cell. rewrite transpose_rows_ncols, HK by assumption.
  apply foldl_seq_ext. intros acc k Hk.
  rewrite !transpose_rows_entry by lia. lia.
Qed.

(** X22.  The transpose of a product is the product of the transposes in
    the other order: for numeric [A] and [B] with [A.m = B.n] and [B] with
    at least one column, [A.matrixMultiplication(B).transpose()] equals
    [B.transpose().matrixMultiplication(A.transpose())]. *)
Theorem X22_transpose_of_product (A B : list (list Z)) :
  is_matrix A = true -> is_matrix B = true ->
  Matrix.m (mat A) = Ok (Matrix.n (mat B)) ->
  (exists cols, Matrix.m (mat B) = Ok cols /\ (1 <= cols)%Z) ->
  exists R,
    (P <-- Matrix.matrixMultiplication (mat A) (mat B);;
     Matrix.transpose P) = Ok R
    /\ (Bt <-- Matrix.transpose (mat B);;
        At <-- Matrix.transpose (mat A);;
        Matrix.matrixMultiplication Bt At) = Ok R.
Proof.
  intros HA HB Hdim (cols & Hcols & Hp).
  pose proof (is_matrix_inv A HA) as (HnA & _).
  pose proof (is_matrix_inv B HB) as (HnB & _).
  rewrite Matrix_m_mat, Matrix_n_mat in Hdim by assumption.
  injection Hdim as Hdim. apply Nat2Z.inj in Hdim.
  rewrite Matrix_m_mat in Hcols by assumption. injection Hcols as <-.
  exists (mat (transpose_rows (product_rows A B))). split.
  - rewrite Matrix_product_rows by (assumption || lia). cbn [bind].
    apply Matrix_transpose_rows; [by apply product_rows_is_matrix|].
    rewrite product_rows_ncols by assumption. lia.
  - rewrite !Matrix_transpose_rows by (assumption || lia). cbn [bind].
    rewrite Matrix_product_rows.
    + by rewrite transpose_product_rows by (assumption || lia).
    + apply transpose_rows_is_matrix; [assumption | lia].
    + apply transpose_rows_is_matrix; [assumption | lia].
    + rewrite transpose_rows_length, transpose_rows_ncols by lia. lia.
Qed.

Lemma X22_witness :
  exists R,
    (P <-- Matrix.matrixMultiplication (mat [[1; 2]; [3; 4]]%Z)
                                       (mat [[5; 6; 7]; [8; 9; 10]]%Z);;
     Matrix.transpose P) = Ok R
    /\ (Bt <-- Matrix.transpose (mat [[5; 6; 7]; [8; 9; 10]]%Z);;
        At <-- Matrix.transpose (mat [[1; 2]; [3; 4]]%Z);;
        Matrix.matrixMultiplication Bt At) = Ok R.
Proof.
  apply (X22_transpose_of_product [[1; 2]; [3; 4]]%Z
           [[5; 6; 7]; [8; 9; 10]]%Z); try reflexivity.
  exists 3%Z. split; [reflexivity | lia].
Defined.

(** X23.  The identity matrix is its own transpose:
    [identity(n).transpose()] equals [identity(n)] for every [n >= 1]. *)
Theorem X23_identity_is_symmetric (n : Z) :
  (1 <= n <= MAX_LENGTH)%Z ->
  (I <-- Matrix.identity n;; Matrix.transpose I) = Matrix.identity n
  /\ exists I, Matrix.identity n = Ok I.
Proof.
  intros Hn. rewrite <- (Z2Nat.id n) by lia.
  rewrite Matrix_identity_rows by lia. cbn [bind]. split; [|eauto].
  rewrite Matrix_transpose_rows.
  - do 2 f_equal. unfold transpose_rows, identity_rows.
    rewrite tabulate_length, ncols_tabulate by lia.
    apply tabulate_ext. intros i j Hi Hj. rewrite entry_tabulate by lia.
    destruct (decide (j = i)), (decide (i = j)); try reflexivity; lia.
  - apply is_matrix_tabulate; lia.
  - unfold identity_rows. rewrite ncols_tabulate by lia. lia.
Qed.

Lemma X23_witness :
  (I <-- Matrix.identity 3;; Matrix.transpose I) = Matrix.identity 3.
Proof.
  apply (X23_identity_is_symmetric 3). unfold MAX_LENGTH. lia.
Defined.

(** ** Vectors as matrices *)

Lemma is_matrix_single_row xs :
  (Z.of_nat (length xs) <= MAX_LENGTH)%Z -> is_matrix [xs] = true.
Proof.
  intros Hmax.
  assert (Hrow : valid_length (Z.of_nat (length xs)) = true).
  { unfold valid_length. revert Hmax. generalize (length xs). intros n Hn.
    zcases; reflexivity. }
  unfold is_matrix. cbn [ncols forallb]. rewrite Nat.eqb_refl, Hrow.
  reflexivity.
Qed.

(** X24.  The scalar product is a matrix product: for numeric vectors [v]
    and [w] of one dimension, at least 2, the product of the one-row
    matrix [new Matrix(v)] with the transpose of [new Matrix(w)] is the
    1-by-1 matrix that holds [v.scalarProduct(w)]. *)
Theorem X24_scalarProduct_as_matrix_product (xs ws : list Z) :
  length xs = length ws -> 2 <= length xs ->
  (Z.of_nat (length xs) <= MAX_LENGTH)%Z ->
  exists P s,
    (V <-- Matrix.constructor (Matrix.OfVector (vec xs)) None None;;
     W <-- Matrix.constructor (Matrix.OfVector (vec ws)) None None;;
     Wt <-- Matrix.transpose W;;
     Matrix.matrixMultiplication V Wt) = Ok P
    /\ Vector.scalarProduct (vec xs) (vec ws) = Ok s
    /\ Matrix.n P = 1%Z
    /\ Matrix.m P = Ok 1%Z
    /\ Matrix.getAt P 0 0 = Ok s.
Proof.
  intros Hlen Hdim Hmax.
  assert (Hxs : is_matrix [xs] = true) by (by apply is_matrix_single_row).
  assert (Hws : is_matrix [ws] = true)
    by (apply is_matrix_single_row; by rewrite <- Hlen).
  assert (Hcopy : forall ys : list Z, 2 <= length ys ->
            Matrix.constructor (Matrix.OfVector (vec ys)) None None
            = Ok (mat [ys])).
  { intros ys Hys. unfold Matrix.constructor, Vector.toArray.
    cbn [vec Vector._vector]. by rewrite Array_of_spread_numbers by lia. }
  exists (mat (product_rows [xs] (transpose_rows [ws]))), (Num (dot xs ws)).
  split.
  { rewrite !Hcopy by lia. cbn [bind].
    rewrite Matrix_transpose_rows by (assumption || (cbn [ncols]; lia)).
    cbn [bind]. apply Matrix_product_rows; try assumption.
    - apply transpose_rows_is_matrix; [assumption | cbn [ncols]; lia].
    - rewrite transpose_rows_length. cbn [ncols]. lia. }
  split; [by apply Vector_scalarProduct_numbers|].
  assert (Hcols : ncols (transpose_rows [ws]) = 1).
  { rewrite transpose_rows_ncols by (cbn [ncols]; lia). reflexivity. }
  unfold product_rows. cbn [length]. rewrite Hcols.
  split; [by rewrite Matrix_n_mat, tabulate_length|].
  split; [rewrite mat_of_tabulate; apply Matrix_m_tabulate; lia|].
  change 0%Z with (Z.of_nat 0).
  rewrite Matrix_getAt_mat_tabulate by lia. do 2 f_equal.
  unfold product_cell, dot. cbn [ncols].
  apply foldl_seq_ext. intros acc k Hk.
  rewrite transpose_rows_entry by (cbn [length ncols]; lia).
  unfold entry. cbn [lookup list_lookup]. lia.
Qed.

Lemma X24_witness :
  exists P s,
    (V <-- Matrix.constructor (Matrix.OfVector (vec [1; 2; 3]%Z)) None None;;
     W <-- Matrix.constructor (Matrix.OfVector (vec [4; 5; 6]%Z)) None None;;
     Wt <-- Matrix.transpose W;;
     Matrix.matrixMultiplication V Wt) = Ok P
    /\ Vector.scalarProduct (vec [1; 2; 3]%Z) (vec [4; 5; 6]%Z) = Ok s
    /\ Matrix.getAt P 0 0 = Ok s.
Proof.
  destruct (X24_scalarProduct_as_matrix_product [1; 2; 3]%Z [4; 5; 6]%Z)
    as (P & s & HP & Hs & _ & _ & Hget).
  - reflexivity.
  - simpl. lia.
  - apply Z.leb_le. reflexivity.
  - exists P, s. auto.
Defined.





(** ** [setMultiple] with values and indices of different lengths *)

Lemma in_bounds_tabulate_inv r c (g : nat -> nat -> option value) (i j : Z) :
  in_bounds (tabulate r c g) i j = true ->
  exists i' j' : nat, i = Z.of_nat i' /\ j = Z.of_nat j' /\ i' < r /\ j' < c.
Proof.
  intros Hin. pose proof (in_bounds_row _ _ _ Hin) as [Hi Hrow].
  rewrite tabulate_length in Hrow.
  rewrite (in_bounds_spec _ _ _ (Z.of_nat c)) in Hin
    by (apply Matrix_m_tabulate; lia).
  repeat match goal with
    | Hb : _ && _ = true |- _ => apply andb_prop in Hb as [? ?]
    end.
  match goal with H0 : (0 <=? j)%Z = true |- _ => apply Z.leb_le in H0 end.
  match goal with H1 : (j <? _)%Z = true |- _ => apply Z.ltb_lt in H1 end.
  exists (Z.to_nat i), (Z.to_nat j). lia.
Qed.

(** The rounds of [values.forEach] once the values outnumber the
    indices: the rounds that have an index assign [arr], the first one
    without throws a [TypeError]. *)
Lemma setMultiple_apply_excess (n m : nat) (rows : list array)
    (indices : list (Z * Z)) (vs : list Z) :
  (Z.of_nat m <= MAX_LENGTH)%Z ->
  (forall i j, In (i, j) indices ->
     exists i' j' : nat,
       i = Z.of_nat i' /\ j = Z.of_nat j' /\ i' < n /\ j' < m) ->
  forall (k : nat) (g : nat -> nat -> option value),
    k <= length indices -> length indices < k + length vs ->
    exists g',
      Matrix.each
        (fun value index f =>
           match indices !! Z.to_nat index, Matrix.arr f with
           | Some (i, j), Some a =>
               match set2 a i j value with
               | Ok a' =>
                   (Matrix.Frame (Matrix.this_matrix f) (Some a'), Ok tt)
               | Throw e => (f, Throw e)
               end
           | _, _ => (f, Throw TypeError)
           end)
        (Z.of_nat k) (numbers vs)
        (Matrix.Frame rows (Some (tabulate n m g)))
      = (Matrix.Frame rows (Some (tabulate n m g')), Throw TypeError).
Proof.
  intros Hmax Hin. induction vs as [|v vs IH]; intros k g Hk Hlen.
  - simpl in Hlen. lia.
  - cbn [numbers fmap list_fmap Matrix.each]. unfold Matrix.then_.
    rewrite Nat2Z.id. cbn [Matrix.arr Matrix.this_matrix].
    destruct (indices !! k) as [[i j]|] eqn:Hidx.
    + destruct (Hin i j) as (i' & j' & -> & -> & Hi & Hj).
      { apply list_elem_of_In, list_elem_of_lookup. eauto. }
      rewrite set2_tabulate by assumption.
      apply lookup_lt_Some in Hidx.
      replace (Z.of_nat k + 1)%Z with (Z.of_nat (S k)) by lia.
      apply IH; [lia | simpl in Hlen; lia].
    + eauto.
Qed.

(** X27.  When [values] has more elements than [indices], all pairs in
    bounds, [setMultiple] on a numeric matrix (columns other than 1)
    throws a [TypeError], from destructuring the index that is not
    there. *)
Theorem X27_Matrix_setMultiple_excess_values
    (A : list (list Z)) (vs : list Z) (indices : list (Z * Z)) :
  is_matrix A = true -> ncols A <> 1 ->
  (forall i j, In (i, j) indices ->
     in_bounds (Matrix._matrix (mat A)) i j = true) ->
  length indices < length vs ->
  Matrix.setMultiple (mat A) (numbers vs) indices = Throw TypeError.
Proof.
  intros HA Hm Hin Hlen.
  pose proof (is_matrix_inv A HA) as (Hn & _ & _ & Hm_max).
  pose proof (mat_tabulate A HA) as Hmat. unfold mat in Hmat.
  injection Hmat as Hrows. cbn [mat Matrix._matrix] in Hin.
  assert (Hall : forallb (fun '(i, j) => in_bounds (numbers <$> A) i j)
                         indices = true).
  { apply forallb_forall. intros [i j] Hp. by apply Hin. }
  unfold Matrix.setMultiple, Matrix.setMultiple_body, Matrix.then_.
  rewrite setMultiple_check_run. cbn [mat Matrix.this_matrix Matrix._matrix].
  rewrite Hall. unfold Matrix.setMultiple_copy. cbn [Matrix.this_matrix].
  change (Matrix.Build (numbers <$> A)) with (mat A).
  rewrite Matrix_to2dArray_numbers by (by apply is_matrix_rows_length).
  unfold Matrix.setMultiple_apply. rewrite Hrows at 2.
  destruct (setMultiple_apply_excess (length A) (ncols A) (numbers <$> A)
              indices vs Hm_max) with (k := 0) (g := cells (entry A))
    as (g' & Hrun); [|lia|lia|].
  { intros i j Hp. apply (in_bounds_tabulate_inv _ _ (cells (entry A))).
    rewrite <- Hrows. by apply Hin. }
  change (Z.of_nat 0) with 0%Z in Hrun. by rewrite Hrun.
Qed.

Lemma X27_witness :
  Matrix.setMultiple (mat [[1; 2]; [3; 4]]%Z) (numbers [7; 8]%Z) [(0, 0)]%Z
  = Throw TypeError.
Proof.
  apply (X27_Matrix_setMultiple_excess_values
           [[1; 2]; [3; 4]]%Z [7; 8]%Z [(0, 0)]%Z eq_refl).
  - simpl. lia.
  - intros i j [[= <- <-]|[]]. reflexivity.
  - simpl. lia.
Defined.

(** X28.  With no values, [setMultiple] only checks the pairs: for a
    numeric matrix (columns other than 1) and pairs all in bounds, however
    many, it returns a matrix equal to the receiver. *)
Theorem X28_Matrix_setMultiple_no_values
    (A : list (list Z)) (indices : list (Z * Z)) :
  is_matrix A = true -> ncols A <> 1 ->
  (forall i j, In (i, j) indices ->
     in_bounds (Matrix._matrix (mat A)) i j = true) ->
  Matrix.setMultiple (mat A) [] indices = Ok (mat A).
Proof.
  intros HA Hm Hin. cbn [mat Matrix._matrix] in Hin.
  assert (Hall : forallb (fun '(i, j) => in_bounds (numbers <$> A) i j)
                         indices = true).
  { apply forallb_forall. intros [i j] Hp. by apply Hin. }
  unfold Matrix.setMultiple, Matrix.setMultiple_body, Matrix.then_.
  rewrite setMultiple_check_run. cbn [mat Matrix.this_matrix Matrix._matrix].
  rewrite Hall. unfold Matrix.setMultiple_copy. cbn [Matrix.this_matrix].
  change (Matrix.Build (numbers <$> A)) with (mat A).
  rewrite Matrix_to2dArray_numbers by (by apply is_matrix_rows_length).
  unfold Matrix.setMultiple_apply, Matrix.setMultiple_return.
  cbn [Matrix.each Matrix.arr snd].
  by apply Matrix_constructor_rows.
Qed.

Lemma X28_witness :
  Matrix.setMultiple (mat [[1; 2]; [3; 4]]%Z) [] [(1, 1); (0, 1)]%Z
  = Ok (mat [[1; 2]; [3; 4]]%Z).
Proof.
  apply (X28_Matrix_setMultiple_no_values
           [[1; 2]; [3; 4]]%Z [(1, 1); (0, 1)]%Z eq_refl).
  - simpl. lia.
  - intros i j [[= <- <-]|[[= <- <-]|[]]]; reflexivity.
Defined.
